(** * Chemotherapy order template analyzer: template analysis pipeline

  A shallow embedding of [chemo-streamlit-app.py]: the drug-knowledge
  request helper ([make_fdb_request]), the enrichment of a regimen
  ([validate_regimen_with_fdb]), the PDF adapter ([process_pdf]), the
  validation page ([display_validation_results]), the upload loop of [main]
  and its treatment calendar.

  The script works on the values returned by [json.loads], so the model
  keeps them dynamically typed and gives every Python operation the script
  applies to them its run-time errors.  Numbers are integers: replies with
  non-integral numbers are outside the model.  The pipeline is modelled for
  parameters that can be quoted and credentials an HTTP header can carry;
  [Strict.make_fdb_request] adds the encoding errors of the request helper. *)

From Stdlib Require Import ZArith List String Ascii Bool Lia DecimalString.
Import ListNotations.
Local Open Scope string_scope.
Local Open Scope Z_scope.
Local Open Scope list_scope.
Set Warnings "-register-all".

(** ** Values and exceptions *)

Inductive json : Type :=
| JNull
| JBool (b : bool)
| JInt (n : Z)
| JStr (s : string)
| JList (l : list json)
| JDict (d : list (string * json)).

Inductive exn : Type :=
| KeyError
| TypeError
| AttributeError
| IndexError
| ValueError
| UnicodeEncodeError
| RequestException (message : string) (response_status : option Z)
| ApiError (message : string).

Inductive outcome (A : Type) : Type :=
| Ok (a : A)
| Raise (e : exn).
Arguments Ok {A} a.
Arguments Raise {A} e.

(** ** Association lists as insertion-ordered dicts *)

Section Assoc.
Context {K V : Type} (eqb : K -> K -> bool).

Fixpoint aget (k : K) (d : list (K * V)) : option V :=
  match d with
  | [] => None
  | (k', v) :: rest => if eqb k k' then Some v else aget k rest
  end.

(** [d[k] = v]: an existing key keeps its position (and its key object), a
    new one goes last. *)
Fixpoint aset (k : K) (v : V) (d : list (K * V)) : list (K * V) :=
  match d with
  | [] => [(k, v)]
  | (k', v') :: rest =>
      if eqb k k' then (k', v) :: rest else (k', v') :: aset k v rest
  end.

Definition ahas (k : K) (d : list (K * V)) : bool :=
  match aget k d with Some _ => true | None => false end.
End Assoc.

Definition lookup {V : Type} : string -> list (string * V) -> option V :=
  aget String.eqb.
Definition store {V : Type} : string -> V -> list (string * V) -> list (string * V) :=
  aset String.eqb.
Definition has_key {V : Type} : string -> list (string * V) -> bool :=
  ahas String.eqb.

(** ** The Python operations the script applies to parsed JSON *)

Module Py.

Definition truthy (x : json) : bool :=
  match x with
  | JNull => false
  | JBool b => b
  | JInt n => negb (n =? 0)
  | JStr s => negb (s =? "")%string
  | JList l => match l with [] => false | _ => true end
  | JDict d => match d with [] => false | _ => true end
  end.

Definition is_str (s : string) (x : json) : bool :=
  match x with
  | JStr t => (t =? s)%string
  | _ => false
  end.

Definition contains (needle hay : string) : bool :=
  match needle with
  | EmptyString => true
  | _ => match index 0 needle hay with Some _ => true | None => false end
  end.

Fixpoint chars (s : string) : list json :=
  match s with
  | EmptyString => []
  | String c rest => JStr (String c EmptyString) :: chars rest
  end.

Definition keys (d : list (string * json)) : list string :=
  nodup string_dec (map fst d).

(** [k in x] for a str [k]. *)
Definition contains_key (k : string) (x : json) : outcome bool :=
  match x with
  | JDict d => Ok (has_key k d)
  | JList l => Ok (existsb (is_str k) l)
  | JStr s => Ok (contains k s)
  | _ => Raise TypeError
  end.

(** [x[k]] for a str [k]. *)
Definition getitem (x : json) (k : string) : outcome json :=
  match x with
  | JDict d => match lookup k d with Some v => Ok v | None => Raise KeyError end
  | _ => Raise TypeError
  end.

(** [x[0]]. *)
Definition first (x : json) : outcome json :=
  match x with
  | JList (a :: _) => Ok a
  | JList [] => Raise IndexError
  | JStr (String c _) => Ok (JStr (String c EmptyString))
  | JStr EmptyString => Raise IndexError
  | JDict _ => Raise KeyError
  | _ => Raise TypeError
  end.

(** [x.get(k, default)]. *)
Definition get (x : json) (k : string) (default : json) : outcome json :=
  match x with
  | JDict d => Ok (match lookup k d with Some v => v | None => default end)
  | _ => Raise AttributeError
  end.

Definition as_number (x : json) : option Z :=
  match x with
  | JInt n => Some n
  | JBool b => Some (if b then 1 else 0)
  | _ => None
  end.

(** [a + b]. *)
Definition add (a b : json) : outcome json :=
  match a, b with
  | JList l1, JList l2 => Ok (JList (l1 ++ l2))
  | JStr s1, JStr s2 => Ok (JStr (s1 ++ s2))
  | _, _ =>
      match as_number a, as_number b with
      | Some m, Some n => Ok (JInt (m + n))
      | _, _ => Raise TypeError
      end
  end.

(** The items a [for] loop over [x] visits. *)
Definition iter (x : json) : outcome (list json) :=
  match x with
  | JList l => Ok l
  | JStr s => Ok (chars s)
  | JDict d => Ok (map JStr (keys d))
  | _ => Raise TypeError
  end.

Definition len (x : json) : outcome Z :=
  match x with
  | JList l => Ok (Z.of_nat (List.length l))
  | JStr s => Ok (Z.of_nat (String.length s))
  | JDict d => Ok (Z.of_nat (List.length (keys d)))
  | _ => Raise TypeError
  end.

(** [range(lo, hi)]. *)
Definition range (lo hi : Z) : list Z :=
  map (fun i => lo + Z.of_nat i) (seq 0 (Z.to_nat (hi - lo))).

(** Hashable values and the key they are found under: [True == 1] and
    [False == 0] as dict keys; lists and dicts are unhashable. *)
Inductive key : Type :=
| KNone
| KInt (n : Z)
| KStr (s : string).

Definition hash (x : json) : option key :=
  match x with
  | JNull => Some KNone
  | JBool b => Some (KInt (if b then 1 else 0))
  | JInt n => Some (KInt n)
  | JStr s => Some (KStr s)
  | JList _ | JDict _ => None
  end.

Definition key_eqb (a b : key) : bool :=
  match a, b with
  | KNone, KNone => true
  | KInt m, KInt n => m =? n
  | KStr s, KStr t => (s =? t)%string
  | _, _ => false
  end.

End Py.

(** ** The outside world

    The script talks to four collaborators: the PDF reader, the completion
    service, the drug-knowledge service and the clock.  Everything it does to
    them, and everything it shows, is appended to one log; what a
    collaborator answers may depend on all that happened before. *)

Record fdb_call : Type := mkCall {
  call_endpoint : string;
  call_client_id : string;
  call_client_secret : string;
  call_params : list (string * json)
}.

Record uploaded_file : Type := mkFile {
  name : string;
  getvalue : string
}.

Inductive effect : Type :=
| PdfRead (file_name : string)
| Completion (api_key prompt : string)
| FdbGet (call : fdb_call)
| StError (message : string)
| StCode (text : string).

(** What [requests.get], [raise_for_status] and [response.json] make of
    one GET. *)
Inductive http_outcome : Type :=
| HttpJson (status_code : Z) (data : json)
| HttpUndecodable (status_code : Z) (message : string)
| HttpStatusError (status_code : Z) (message : string)
| HttpNoResponse (message : string).

Record world : Type := mkWorld {
  (* built-ins *)
  py_str : json -> string;
  int_of_str : string -> option Z;
  json_loads : string -> option json;
  quote : string -> string;
  (* collaborators *)
  now : list effect -> string;
  http_get : list effect -> string -> list (string * string) -> http_outcome;
  pdf_pages : list effect -> uploaded_file -> string + list string;
  messages_create : list effect -> string -> string -> outcome string
}.

(** ** Session state and the script's monad *)

Record entry : Type := mkEntry {
  drug_info : json;
  interactions : json;
  dosing : json
}.

Definition validation := list (json * entry).

Record state : Type := mkState {
  json_outputs : list (string * json);
  fdb_validation : list (string * validation);
  log : list effect
}.

(** A computation over a mutable [S] that returns or raises; what it did to
    [S] before raising stays done. *)
Definition M (S A : Type) : Type := S -> S * outcome A.

Definition ret {S A : Type} (a : A) : M S A := fun s => (s, Ok a).

Definition bind {S A B : Type} (m : M S A) (f : A -> M S B) : M S B :=
  fun s =>
  match m s with
  | (s', Ok a) => f a s'
  | (s', Raise e) => (s', Raise e)
  end.

Definition lift {S A : Type} (r : outcome A) : M S A := fun s => (s, r).

Notation "x <- m ;; k" := (bind m (fun x => k))
  (at level 61, m at next level, right associativity).
Notation "m ;;; k" := (bind m (fun _ => k))
  (at level 61, right associativity).

(** [for x in items: acc = body(acc, x)]. *)
Fixpoint for_each {S A B : Type} (body : B -> A -> M S B) (acc : B) (items : list A) : M S B :=
  match items with
  | [] => ret acc
  | x :: rest => acc' <- body acc x ;; for_each body acc' rest
  end.

Definition emit (e : effect) : M state unit :=
  fun s => (mkState (json_outputs s) (fdb_validation s) (log s ++ [e]), Ok tt).

Definition history : M state (list effect) := fun s => (s, Ok (log s)).

(** ** make_fdb_request *)

Definition FDB_BASE_URL : string := "https://api.fdbcloudconnector.com/CC/api/v1_4".

Definition request_headers (client_id client_secret : string) : list (string * string) :=
  [("Authorization", "SHAREDKEY " ++ client_id ++ ":" ++ client_secret);
 ("Accept", "application/json");
 ("Content-Type", "application/x-www-form-urlencoded")]%string.

Definition request_url (w : world) (endpoint : string) (params : list (string * json)) : string :=
  let url := (FDB_BASE_URL ++ "/" ++ endpoint)%string in
  match params with
| [] => url
| _ =>
    let query_string :=
      concat "&" (map (fun kv => (fst kv ++ "=" ++ quote w (py_str w (snd kv)))%string) params) in
    (url ++ (if Py.contains "?" url then "&" else "?") ++ query_string)%string
  end.

(** The body of the [try]: the GET, [raise_for_status], [response.json]. *)
Definition attempt (o : http_outcome) : outcome json :=
  match o with
| HttpNoResponse message => Raise (RequestException message None)
| HttpStatusError code message => Raise (RequestException message (Some code))
| HttpUndecodable _ message => Raise (RequestException message None)
| HttpJson code data =>
    Ok (JDict [("status", JStr "success"); ("data", data); ("status_code", JInt code)])
  end.

(** [except requests.exceptions.RequestException as e]. *)
Definition except_request_exception (r : outcome json) : outcome json :=
  match r with
| Raise (RequestException message status) =>
    Ok (JDict [("status", JStr "error");
               ("message", JStr message);
               ("status_code", match status with Some c => JInt c | None => JNull end)])
| other => other
  end.

Definition make_fdb_request (w : world) (endpoint client_id client_secret : string)
  (params : option (list (string * json))) : M state json :=
  let params := match params with Some p => p | None => [] end in
  let params := store "callSystemName" (JStr "ChemoAnalyzer") params in
  h <- history ;;
  let params := store "callid" (JStr (now w h)) params in
  let headers := request_headers client_id client_secret in
  emit (FdbGet (mkCall endpoint client_id client_secret params)) ;;;
  lift (except_request_exception
        (attempt (http_get w h (request_url w endpoint params) headers))).

(** ** make_fdb_request with the encoding errors of its try block

    Two calls inside the [try] raise [UnicodeEncodeError], which is not a
    [RequestException]: [urllib.parse.quote] on a parameter it cannot encode
    (a lone surrogate) and [requests.get] on a header value outside Latin-1.
    [Strict.make_fdb_request] is the function with these two errors; the
    [make_fdb_request] of the pipeline above is its case where every parameter
    can be quoted and [requests.get] raises nothing but [RequestException]
    ([strict_agrees]). *)

Module Strict.

Record wire : Type := mkWire {
  (* urllib.parse.quote; None when it raises UnicodeEncodeError *)
  quote : string -> option string;
  (* requests.get, raise_for_status and response.json: what they make of the
     GET, or the exception they raise when it is none of the four outcomes *)
  requests_get : list effect -> string -> list (string * string) -> outcome http_outcome
}.

(** [[f"{k}={urllib.parse.quote(str(v))}" for k, v in params.items()]]. *)
Fixpoint quoted (w : world) (x : wire) (params : list (string * json))
  : option (list string) :=
  match params with
  | [] => Some []
  | (k, v) :: rest =>
      match quote x (py_str w v) with
      | Some q =>
          match quoted w x rest with
          | Some qs => Some ((k ++ "=" ++ q)%string :: qs)
          | None => None
          end
      | None => None
      end
  end.

Definition request_url (w : world) (x : wire) (endpoint : string)
  (params : list (string * json)) : option string :=
  let url := (FDB_BASE_URL ++ "/" ++ endpoint)%string in
  match params with
  | [] => Some url
  | _ =>
      match quoted w x params with
      | Some parts =>
          Some (url ++ (if Py.contains "?" url then "&" else "?") ++ concat "&" parts)%string
      | None => None
      end
  end.

Definition make_fdb_request (w : world) (x : wire)
  (endpoint client_id client_secret : string)
  (params : option (list (string * json))) : M state json :=
  let params := match params with Some p => p | None => [] end in
  let params := store "callSystemName" (JStr "ChemoAnalyzer") params in
  h <- history ;;
  let params := store "callid" (JStr (now w h)) params in
  let headers := request_headers client_id client_secret in
  match request_url w x endpoint params with
  | Some url =>
      emit (FdbGet (mkCall endpoint client_id client_secret params)) ;;;
      lift (except_request_exception
              (match requests_get x h url headers with
               | Ok o => attempt o
               | Raise e => Raise e
               end))
  | None => lift (except_request_exception (Raise UnicodeEncodeError))
  end.

End Strict.

(** The wire on which every parameter can be quoted and [requests.get]
    raises nothing but [RequestException]. *)
Definition wire_of (w : world) : Strict.wire :=
  Strict.mkWire (fun text => Some (quote w text))
    (fun h url headers => Ok (http_get w h url headers)).

(** ** validate_regimen_with_fdb *)

Definition same_key (a b : json) : bool :=
  match Py.hash a, Py.hash b with
| Some x, Some y => Py.key_eqb x y
| _, _ => false
  end.

(** [validation_results[med_name] = e]. *)
Definition vset (med_name : json) (e : entry) (d : validation) : outcome validation :=
  match Py.hash med_name with
| Some _ => Ok (aset same_key med_name e d)
| None => Raise TypeError
  end.

Definition vget (med_name : json) (d : validation) : option entry :=
  aget same_key med_name d.

Definition search_params (med_name : json) : list (string * json) :=
  [("searchtext", med_name); ("searchtype", JStr "contains"); ("limit", JStr "1")].

Definition interactions_endpoint (w : world) (drug_id : json) : string :=
  ("PrescribableDrugs/" ++ py_str w drug_id ++ "/Interactions")%string.

Definition dose_records_endpoint (w : world) (drug_id : json) : string :=
  ("PrescribableDrugs/" ++ py_str w drug_id ++ "/DoseRecords")%string.

(** The part of the loop body under [if "Items" in drug_data and
    len(drug_data["Items"]) > 0]. *)
Definition enrich_resolved (w : world) (client_id client_secret : string)
  (validation_results : validation) (med_name drug_data : json) : M state validation :=
  items <- lift (Py.getitem drug_data "Items") ;;
  item <- lift (Py.first items) ;;
  drug_id <- lift (Py.getitem item "PrescribableDrugID") ;;
  interactions <- make_fdb_request w (interactions_endpoint w drug_id) client_id client_secret None ;;
  dosing <- make_fdb_request w (dose_records_endpoint w drug_id) client_id client_secret None ;;
  items <- lift (Py.getitem drug_data "Items") ;;
  item <- lift (Py.first items) ;;
  interactions_data <- lift (Py.get interactions "data" (JDict [])) ;;
  dosing_data <- lift (Py.get dosing "data" (JDict [])) ;;
  lift (vset med_name (mkEntry item interactions_data dosing_data) validation_results).

(** ["Items" in drug_data and len(drug_data["Items"]) > 0]. *)
Definition has_items (drug_data : json) : outcome bool :=
  match Py.contains_key "Items" drug_data with
| Ok true =>
    match Py.getitem drug_data "Items" with
    | Ok items =>
        match Py.len items with
        | Ok n => Ok (0 <? n)
        | Raise e => Raise e
        end
    | Raise e => Raise e
    end
| other => other
  end.

(** [result["status"] == "success" and "data" in result]. *)
Definition succeeded (result : json) : outcome bool :=
  match Py.getitem result "status" with
| Ok status => if Py.is_str "success" status then Py.contains_key "data" result else Ok false
| Raise e => Raise e
  end.

(** The body of [for med in all_meds]. *)
Definition enrich (w : world) (client_id client_secret : string)
  (validation_results : validation) (med : json) : M state validation :=
  med_name <- lift (Py.getitem med "name") ;;
  result <- make_fdb_request w "PrescribableDrugs" client_id client_secret
            (Some (search_params med_name)) ;;
  ok <- lift (succeeded result) ;;
  if ok : bool then
  drug_data <- lift (Py.getitem result "data") ;;
  found <- lift (has_items drug_data) ;;
  if found : bool then
    enrich_resolved w client_id client_secret validation_results med_name drug_data
  else ret validation_results
  else ret validation_results.

(** [medications.get('pretreatmentMedications', []) +
    medications.get('chemotherapy', []) + medications.get('targetedTherapy', [])]. *)
Definition all_meds (medications : json) : outcome json :=
  match Py.get medications "pretreatmentMedications" (JList []) with
| Ok pre =>
    match Py.get medications "chemotherapy" (JList []) with
    | Ok chemo =>
        match Py.add pre chemo with
        | Ok both =>
            match Py.get medications "targetedTherapy" (JList []) with
            | Ok targeted => Py.add both targeted
            | Raise e => Raise e
            end
        | Raise e => Raise e
        end
    | Raise e => Raise e
    end
| Raise e => Raise e
  end.

(** [regimen_data['phase1']['treatmentTemplate']['cycle']]. *)
Definition cycle_of (regimen_data : json) : outcome json :=
  match Py.getitem regimen_data "phase1" with
| Ok phase =>
    match Py.getitem phase "treatmentTemplate" with
    | Ok template => Py.getitem template "cycle"
    | Raise e => Raise e
    end
| Raise e => Raise e
  end.

(** [cycle_data['medications']['day1']]. *)
Definition day1_of (cycle_data : json) : outcome json :=
  match Py.getitem cycle_data "medications" with
| Ok by_day => Py.getitem by_day "day1"
| Raise e => Raise e
  end.

(** The medications the loop visits: lines 93 to 98 and the iteration of
    [for med in all_meds]. *)
Definition day1_meds (regimen_data : json) : outcome (list json) :=
  match cycle_of regimen_data with
| Ok cycle_data =>
    match day1_of cycle_data with
    | Ok medications =>
        match all_meds medications with
        | Ok meds => Py.iter meds
        | Raise e => Raise e
        end
    | Raise e => Raise e
    end
| Raise e => Raise e
  end.

Definition validate_regimen_with_fdb (w : world) (regimen_data : json)
  (client_id client_secret : string) : M state validation :=
  if negb (Py.truthy regimen_data) then ret []
  else
  present <- lift (Py.contains_key "phase1" regimen_data) ;;
  if negb present then ret []
  else
    meds <- lift (day1_meds regimen_data) ;;
    for_each (enrich w client_id client_secret) [] meds.

(** ** process_pdf *)

Definition newline : string := String (ascii_of_nat 10) EmptyString.

(** [text = ""; for page in pages: text += page.extract_text() + "\n"]. *)
Definition page_text (pages : list string) : string :=
  fold_left (fun text page => (text ++ page ++ newline)%string) pages "".

Definition process_pdf (w : world) (file : uploaded_file) : M state string :=
  h <- history ;;
  emit (PdfRead (name file)) ;;;
  match pdf_pages w h file with
| inr pages => ret (page_text pages)
| inl message => emit (StError ("Error processing PDF: " ++ message)) ;;; ret ""
  end.

(** ** main: the upload loop of the Template Analysis tab *)

Record sidebar : Type := mkSidebar {
  fdb_client_id : string;
  fdb_client_secret : string;
  anthropic_api_key : string
}.

Definition nonempty (s : string) : bool := negb (s =? "")%string.

Definition set_json_output (file_name : string) (data : json) : M state unit :=
  fun s => (mkState (store file_name data (json_outputs s)) (fdb_validation s) (log s), Ok tt).

Definition set_fdb_validation (file_name : string) (v : validation) : M state unit :=
  fun s => (mkState (json_outputs s) (store file_name v (fdb_validation s)) (log s), Ok tt).

Definition extraction_prompt (pdf_text : string) : string :=
  ("Extract structured regimen data from this template:" ++ newline ++ newline ++ pdf_text)%string.

(** The body of [for uploaded_file in uploaded_files]. *)
Definition process_upload (w : world) (cfg : sidebar) (uploaded : uploaded_file) : M state unit :=
  fun s =>
    if has_key (name uploaded) (json_outputs s) then (s, Ok tt)
    else
      (pdf_text <- process_pdf w uploaded ;;
       if nonempty pdf_text then
         h <- history ;;
         let prompt := extraction_prompt pdf_text in
         emit (Completion (anthropic_api_key cfg) prompt) ;;;
         text <- lift (messages_create w h (anthropic_api_key cfg) prompt) ;;
         match json_loads w text with
         | Some extracted_data =>
             set_json_output (name uploaded) extracted_data ;;;
             if nonempty (fdb_client_id cfg) && nonempty (fdb_client_secret cfg) then
               validation_results <-
                 validate_regimen_with_fdb w extracted_data
                   (fdb_client_id cfg) (fdb_client_secret cfg) ;;
               set_fdb_validation (name uploaded) validation_results
             else ret tt
         | None =>
             emit (StError ("Failed to parse JSON for " ++ name uploaded)) ;;;
             emit (StCode text)
         end
       else ret tt) s.

Definition process_uploads (w : world) (cfg : sidebar) (uploaded_files : list uploaded_file)
  : M state unit :=
  for_each (fun _ uploaded => process_upload w cfg uploaded) tt uploaded_files.

(** ** main: the Treatment Calendar tab *)

(** What [st.markdown] writes into a day's container: the heading
    [**Day {day}**] or a line [- {name}: {dose}]. *)
Inductive markdown : Type :=
| MdDay (day : Z)
| MdMed (med_name dose : json).

Definition markdown_text (w : world) (m : markdown) : string :=
  match m with
| MdDay day => ("**Day " ++ py_str w (JInt day) ++ "**")%string
| MdMed n d => ("- " ++ py_str w n ++ ": " ++ py_str w d)%string
  end.

Record container : Type := mkContainer {
  column : Z;
  body : list markdown
}.

Definition st_markdown (m : markdown) : M (list markdown) unit :=
  fun out => ((out ++ [m])%list, Ok tt).

(** [int(x)]. *)
Definition py_int (w : world) (x : json) : outcome Z :=
  match x with
| JInt n => Ok n
| JBool b => Ok (if b then 1 else 0)
| JStr s => match int_of_str w s with Some n => Ok n | None => Raise ValueError end
| _ => Raise TypeError
  end.

(** [int(cycle_data.get('duration', {}).get('numberOfDays', 28))]. *)
Definition cycle_length_of (w : world) (cycle_data : json) : outcome Z :=
  match Py.get cycle_data "duration" (JDict []) with
| Ok duration =>
    match Py.get duration "numberOfDays" (JInt 28) with
    | Ok days => py_int w days
    | Raise e => Raise e
    end
| Raise e => Raise e
  end.

(** [for med in medications[med_type]: st.markdown(f"- {med['name']}: {med['dose']}")]. *)
Definition show_med (_ : unit) (med : json) : M (list markdown) unit :=
  med_name <- lift (Py.getitem med "name") ;;
  dose <- lift (Py.getitem med "dose") ;;
  st_markdown (MdMed med_name dose).

(** The body of [for med_type in ['chemotherapy', 'targetedTherapy']]. *)
Definition show_med_type (medications : json) (_ : unit) (med_type : string)
  : M (list markdown) unit :=
  present <- lift (Py.contains_key med_type medications) ;;
  if present : bool then
  group <- lift (Py.getitem medications med_type) ;;
  meds <- lift (Py.iter group) ;;
  for_each show_med tt meds
  else ret tt.

(** What one pass of [for day in range(1, cycle_length + 1)] writes into its
    container. *)
Definition show_day (cycle_data : json) (day : Z) : M (list markdown) unit :=
  st_markdown (MdDay day) ;;;
  if day =? 1 then
  medications <- lift (day1_of cycle_data) ;;
  for_each (show_med_type medications) tt ["chemotherapy"; "targetedTherapy"]%string
  else ret tt.

(** The calendar grid: one container per day, in column [day % 7]; a raise
    leaves what was written so far on the page. *)
Fixpoint show_days (cycle_data : json) (days : list Z) : M (list container) unit :=
  match days with
  | [] => ret tt
  | day :: rest =>
      fun page =>
        let '(written, r) := show_day cycle_data day [] in
        let page' := (page ++ [mkContainer (day mod 7) written])%list in
        match r with
        | Ok _ => show_days cycle_data rest page'
        | Raise e => (page', Raise e)
        end
  end.

(** [if 'phase1' in regimen_data: ...] *)
Definition calendar (w : world) (regimen_data : json) : M (list container) unit :=
  present <- lift (Py.contains_key "phase1" regimen_data) ;;
  if present : bool then
  cycle_data <- lift (cycle_of regimen_data) ;;
  cycle_length <- lift (cycle_length_of w cycle_data) ;;
  show_days cycle_data (Py.range 1 (cycle_length + 1))
  else ret tt.

(** The tab, given the template the select box returns. *)
Definition treatment_calendar (w : world) (s : state) (selected_template : string)
  : M (list container) unit :=
  match json_outputs s with
| [] => ret tt
| _ =>
    if nonempty selected_template then
      match lookup selected_template (json_outputs s) with
      | Some regimen_data => calendar w regimen_data
      | None => lift (Raise KeyError)
      end
    else ret tt
  end.

(** The day-entries of a rendered calendar: the day each container is headed
    with and the medication lines under it. *)
Definition day_of (c : container) : option Z :=
  match body c with
| MdDay day :: _ => Some day
| _ => None
  end.

Definition meds_of (c : container) : list (json * json) :=
  flat_map (fun m => match m with MdMed n d => [(n, d)] | MdDay _ => [] end) (body c).

(** ** Observations on a run *)

(** The GET a search for [med_name] issues when the log is [h], and what
    the service answers. *)
Definition search_call (w : world) (client_id client_secret : string) (med_name : json)
  (h : list effect) : fdb_call :=
  mkCall "PrescribableDrugs" client_id client_secret
  (store "callid" (JStr (now w h))
     (store "callSystemName" (JStr "ChemoAnalyzer") (search_params med_name))).

Definition search_result (w : world) (client_id client_secret : string) (med_name : json)
  (h : list effect) : http_outcome :=
  http_get w h
  (request_url w "PrescribableDrugs" (call_params (search_call w client_id client_secret med_name h)))
  (request_headers client_id client_secret).

(** The GET issued without parameters of its own at [endpoint]. *)
Definition plain_call (w : world) (client_id client_secret endpoint : string)
  (h : list effect) : fdb_call :=
  mkCall endpoint client_id client_secret
  (store "callid" (JStr (now w h)) (store "callSystemName" (JStr "ChemoAnalyzer") [])).

Definition plain_result (w : world) (client_id client_secret endpoint : string)
  (h : list effect) : http_outcome :=
  http_get w h
  (request_url w endpoint (call_params (plain_call w client_id client_secret endpoint h)))
  (request_headers client_id client_secret).

Definition is_fdb_get (e : effect) : bool :=
  match e with FdbGet _ => true | _ => false end.

(** The names searched for, in the order of the searches. *)
Definition searched (h : list effect) : list json :=
  flat_map
  (fun e =>
     match e with
     | FdbGet c =>
         if (call_endpoint c =? "PrescribableDrugs")%string then
           match lookup "searchtext" (call_params c) with Some n => [n] | None => [] end
         else []
     | _ => []
     end) h.

(** The [name] of each medication of a list, when each has one. *)
Fixpoint names_of (meds : list json) : outcome (list json) :=
  match meds with
  | [] => Ok []
  | med :: rest =>
      match Py.getitem med "name", names_of rest with
      | Ok n, Ok ns => Ok (n :: ns)
      | Raise e, _ => Raise e
      | _, Raise e => Raise e
      end
  end.

(** The same world with another drug-knowledge service. *)
Definition with_http_get (w : world)
  (g : list effect -> string -> list (string * string) -> http_outcome) : world :=
  mkWorld (py_str w) (int_of_str w) (json_loads w) (quote w) (now w) g
  (pdf_pages w) (messages_create w).

(** A computation that leaves the stored regimens and validations alone and
    only adds to the log. *)
Definition appends {A : Type} (m : M state A) : Prop :=
  forall s, exists t,
    fst (m s) = mkState (json_outputs s) (fdb_validation s) (log s ++ t).

(** The state after more was logged. *)
Definition logged (s : state) (t : list effect) : state :=
  mkState (json_outputs s) (fdb_validation s) (log s ++ t).

(** [x.get("data", {})] for the dictionary [make_fdb_request] returns on
    the answer [o]. *)
Definition data_of (o : http_outcome) : json :=
  match o with
| HttpJson _ data => data
| _ => JDict []
  end.

(** [drug_data["Items"][0]] and its ["PrescribableDrugID"]. *)
Definition resolve (drug_data : json) : outcome (json * json) :=
  match Py.getitem drug_data "Items" with
| Ok items =>
    match Py.first items with
    | Ok item =>
        match Py.getitem item "PrescribableDrugID" with
        | Ok drug_id => Ok (item, drug_id)
        | Raise e => Raise e
        end
    | Raise e => Raise e
    end
| Raise e => Raise e
  end.

(** What the loop body fetches for a medication named [med_name] before it
    assigns, spelled out by the answers of the service. *)
Definition fetched (w : world) (client_id client_secret : string) (med_name : json)
  (s : state) : state * outcome (option (json * entry)) :=
  let search := FdbGet (search_call w client_id client_secret med_name (log s)) in
  match search_result w client_id client_secret med_name (log s) with
| HttpJson _ drug_data =>
    match has_items drug_data with
    | Ok true =>
        match resolve drug_data with
        | Ok (item, drug_id) =>
            let h1 := log s ++ [search] in
            let e1 := interactions_endpoint w drug_id in
            let c1 := FdbGet (plain_call w client_id client_secret e1 h1) in
            let h2 := h1 ++ [c1] in
            let e2 := dose_records_endpoint w drug_id in
            let c2 := FdbGet (plain_call w client_id client_secret e2 h2) in
            (logged s [search; c1; c2],
             Ok (Some (med_name,
                       mkEntry item
                         (data_of (plain_result w client_id client_secret e1 h1))
                         (data_of (plain_result w client_id client_secret e2 h2)))))
        | Raise e => (logged s [search], Raise e)
        end
    | Ok false => (logged s [search], Ok None)
    | Raise e => (logged s [search], Raise e)
    end
| _ => (logged s [search], Ok None)
  end.

(** [validation_results] after the loop body fetched [r]. *)
Definition assigned (v : validation) (r : option (json * entry)) : outcome validation :=
  match r with
| Some (med_name, e) => vset med_name e v
| None => Ok v
  end.

(** No two entries under the same name. *)
Definition distinct_names (v : validation) : Prop :=
  ForallOrdPairs (fun a b => same_key (fst a) (fst b) = false) v.


Definition group_is_list (medications : list (string * json)) (med_type : string) : bool :=
  match lookup med_type medications with
| None | Some (JList _) => true
| Some _ => false
  end.

(** The value a run returned, or [default] when it raised. *)
Definition returned {A : Type} (default : A) (r : outcome A) : A :=
  match r with
| Ok a => a
| Raise _ => default
  end.

(** A day-1 schedule the calendar can write out: each of its chemotherapy
    and targetedTherapy groups, when present, is a list of objects with a
    [name] and a [dose]. *)
Definition med_ok (med : json) : bool :=
  match med with
| JDict d => has_key "name" d && has_key "dose" d
| _ => false
  end.

Definition group_ok (medications : list (string * json)) (med_type : string) : bool :=
  match lookup med_type medications with
| None => true
| Some (JList meds) => forallb med_ok meds
| Some _ => false
  end.

Definition group (medications : list (string * json)) (med_type : string) : list json :=
  match lookup med_type medications with
| Some (JList meds) => meds
| _ => []
  end.

Definition name_dose (med : json) : json * json :=
  match Py.getitem med "name", Py.getitem med "dose" with
| Ok n, Ok d => (n, d)
| _, _ => (JNull, JNull)
  end.

Definition med_line (med : json) : markdown :=
  MdMed (fst (name_dose med)) (snd (name_dose med)).

(** The medications of the three groups the loop concatenates. *)
Definition enriched_groups (medications : list (string * json)) : list json :=
  group medications "pretreatmentMedications" ++ group medications "chemotherapy"
  ++ group medications "targetedTherapy".

(** The container of a day with nothing under its heading. *)
Definition heading_only (day : Z) : container := mkContainer (day mod 7) [MdDay day].

(** The medications the calendar shows on day 1. *)
Definition shown_on_day1 (medications : list (string * json)) : list json :=
  group medications "chemotherapy" ++ group medications "targetedTherapy".





(** ** display_validation_results *)

(** What the function puts on the page, in the order of its calls; a
    widget inside [with col1] or [with col2] carries the column. *)
Inductive widget : Type :=
| Expander (label : string)
| Subheader (col : option nat) (text : string)
| Write (col : option nat) (text : string)
| Warning (col : option nat) (message : json)
| Info (col : option nat) (text : string).

Definition show (x : widget) : M (list widget) unit :=
  fun out => (out ++ [x], Ok tt).

(** [st.write(f"{label}{drug_info.get(key, 'N/A')}")] in the first column. *)
Definition show_field (w : world) (drug_info : json) (label key : string)
  : M (list widget) unit :=
  value <- lift (Py.get drug_info key (JStr "N/A")) ;;
  show (Write (Some 0%nat) (label ++ py_str w value)).

(** [if isinstance(interactions, list): ... else: st.info(...)]. *)
Definition show_interactions (interactions : json) : M (list widget) unit :=
  match interactions with
  | JList items =>
      for_each (fun _ interaction => show (Warning (Some 1%nat) interaction)) tt items
  | _ => show (Info (Some 1%nat) "No significant interactions found")
  end.

(** The body of [for dose_record in dosing["DoseRecords"]]. *)
Definition show_dose_record (w : world) (_ : unit) (dose_record : json)
  : M (list widget) unit :=
  description <- lift (Py.get dose_record "DoseDescription" (JStr "N/A")) ;;
  show (Write None ("- " ++ py_str w description)).

(** [if isinstance(dosing, dict) and "DoseRecords" in dosing: ...]. *)
Definition show_dosing (w : world) (dosing : json) : M (list widget) unit :=
  match dosing with
  | JDict d =>
      if has_key "DoseRecords" d then
        records <- lift (Py.getitem dosing "DoseRecords") ;;
        items <- lift (Py.iter records) ;;
        for_each (show_dose_record w) tt items
      else ret tt
  | _ => ret tt
  end.

(** The body of [for med_name, results in validation_results.items()];
    [results] always has its three keys. *)
Definition show_results (w : world) (_ : unit) (item : json * entry)
  : M (list widget) unit :=
  let med_name := fst item in
  let results := snd item in
  show (Expander ("Validation Results: " ++ py_str w med_name)) ;;;
  show (Subheader (Some 0%nat) "Drug Information") ;;;
  show_field w (drug_info results) "Generic: " "DispensableGenericDesc" ;;;
  show_field w (drug_info results) "Route: " "RouteDesc" ;;;
  show_field w (drug_info results) "Form: " "DoseFormDesc" ;;;
  show (Subheader (Some 1%nat) "Interactions") ;;;
  show_interactions (interactions results) ;;;
  show (Subheader None "Dosing Information") ;;;
  show_dosing w (dosing results).

Definition display_validation_results (w : world) (validation_results : validation)
  : M (list widget) unit :=
  match validation_results with
  | [] => show (Warning None (JStr "No validation results available"))
  | _ => for_each (show_results w) tt validation_results
  end.

(** ** More observations *)

(** The labels of the expanders on a page. *)
Definition expanders (out : list widget) : list string :=
  flat_map (fun x => match x with Expander label => [label] | _ => [] end) out.

Definition is_list (x : json) : bool :=
  match x with JList _ => true | _ => false end.

Definition is_dict (x : json) : bool :=
  match x with JDict _ => true | _ => false end.

(** Dosing data the page can list: not an object, an object without
    [DoseRecords], or one whose [DoseRecords] is a list of objects. *)
Definition dosing_ok (dosing : json) : bool :=
  match dosing with
  | JDict d =>
      match lookup "DoseRecords" d with
      | None => true
      | Some (JList records) => forallb is_dict records
      | Some _ => false
      end
  | _ => true
  end.

(** An answer that makes [make_fdb_request] return its error dictionary. *)
Definition failed (o : http_outcome) : bool :=
  match o with HttpJson _ _ => false | _ => true end.

(** An entry whose [drug_info] is an object with a [PrescribableDrugID]. *)
Definition identified (e : entry) : bool :=
  match drug_info e with
  | JDict d => has_key "PrescribableDrugID" d
  | _ => false
  end.

(** [drug_info.get(key, 'N/A')] for the object [d]. *)
Definition field (d : list (string * json)) (key : string) : json :=
  match lookup key d with
  | Some value => value
  | None => JStr "N/A"
  end.

(** The label of the expander of an entry. *)
Definition expander_label (w : world) (item : json * entry) : string :=
  ("Validation Results: " ++ py_str w (fst item))%string.

(** A computation that only adds to the page it writes on. *)
Definition extends {X A : Type} (m : M (list X) A) : Prop :=
  forall out, exists t, fst (m out) = out ++ t.

Definition is_st_error (e : effect) : bool :=
  match e with StError _ => true | _ => false end.

(** Every document with stored validation results has a stored regimen. *)
Definition validated_are_stored (s : state) : Prop :=
  forall file_name,
    has_key file_name (fdb_validation s) = true ->
    has_key file_name (json_outputs s) = true.

(** ** Scenarios *)

Definition scalar_str (x : json) : string :=
  match x with
| JNull => "None"
| JBool true => "True"
| JBool false => "False"
| JInt n => NilZero.string_of_int (Z.to_int n)
| JStr s => s
| JList _ | JDict _ => ""
  end.

(** A world for the scenarios: [str] on the scalars they format, [int] on
    plain decimal literals, [json.loads] on a table of replies, names that
    need no quoting, a stopped clock, a one-page PDF reader handing out the
    file's content, a completion service with a fixed reply, and [get] as
    the drug-knowledge service. *)
Definition scenario (replies : list (string * json)) (reply : string)
  (get : list effect -> string -> list (string * string) -> http_outcome) : world :=
  mkWorld scalar_str
  (fun s => option_map Z.of_int (NilZero.int_of_string s))
  (fun text => lookup text replies)
  (fun s => s)
  (fun _ => "20240101120000")
  get
  (fun _ file => inr [getvalue file])
  (fun _ _ _ => Ok reply).

Definition med (med_name dose : string) : json :=
  JDict [("name", JStr med_name); ("dose", JStr dose)].

Definition regimen_of (cycle : json) : json :=
  JDict [("phase1", JDict [("treatmentTemplate", JDict [("cycle", cycle)])])].

Definition found_drug : json :=
  JDict [("Items", JList [JDict [("PrescribableDrugID", JInt 7)]])].

Definition always (o : http_outcome) : list effect -> string -> list (string * string) -> http_outcome :=
  fun _ _ _ => o.

Definition empty_session : state := mkState [] [] [].

(** A service that answers [o] except to the two requests that follow the
    first [n]: those time out. *)
Definition flaky (n : nat) (o : http_outcome)
  : list effect -> string -> list (string * string) -> http_outcome :=
  fun h _ _ =>
  if ((List.length h =? n + 1) || (List.length h =? n + 2))%nat
  then HttpNoResponse "timed out" else o.

Definition offline : world := scenario [] "" (always (HttpNoResponse "unreachable")).

Definition unmatched : world :=
  scenario [] "" (always (HttpJson 200 (JDict [("Items", JList [])]))).

Definition catalog : world := scenario [] "" (always (HttpJson 200 found_drug)).

Definition docetaxel_day : json :=
  JDict [("chemotherapy", JList [med "Docetaxel" "75mg/m2"])].

Definition cisplatin_day : json :=
  JDict [("chemotherapy", JList [med "Cisplatin" "50mg/m2"])].

Definition mixed_case_cycle : json :=
  JDict [("medications",
        JDict [("day1",
                JDict [("chemotherapy",
                        JList [med "Docetaxel" "75mg/m2"; med "docetaxel" "75mg/m2";
                               med "Docetaxel" "60mg/m2"])])])].

Definition two_drug_cycle : json :=
  JDict [("medications",
        JDict [("day1",
                JDict [("chemotherapy",
                        JList [med "Docetaxel" "75mg/m2"; med "Cisplatin" "50mg/m2"])])])].

Definition two_days : json := JDict [("numberOfDays", JInt 2)].

Definition two_day_cycle : json :=
  JDict [("duration", two_days);
       ("medications", JDict [("day1", docetaxel_day); ("day2", cisplatin_day)])].

Definition cycle_without_day1 : json :=
  JDict [("duration", two_days); ("medications", JDict [("day2", cisplatin_day)])].

Definition cycle_without_duration : json :=
  JDict [("medications", JDict [("day1", docetaxel_day)])].

Definition no_credentials : sidebar := mkSidebar "" "" "key".

Definition credentials : sidebar := mkSidebar "id" "secret" "key".

Definition template : uploaded_file := mkFile "a.pdf" "Cycle 1, Day 1: Docetaxel 75mg/m2".

(** The scenario world with another PDF reader and completion service. *)
Definition scenario_with (w : world)
  (pdf : list effect -> uploaded_file -> string + list string)
  (complete : list effect -> string -> string -> outcome string) : world :=
  mkWorld (py_str w) (int_of_str w) (json_loads w) (quote w) (now w) (http_get w)
    pdf complete.

Definition unreadable : world :=
  scenario_with offline (fun _ _ => inl "EOF marker not found") (fun _ _ _ => Ok "{}").

Definition no_pages : world :=
  scenario_with offline (fun _ _ => inr []) (fun _ _ _ => Ok "{}").

Definition rejected_key : world :=
  scenario_with offline (fun _ file => inr [getvalue file])
    (fun _ _ _ => Raise (ApiError "invalid x-api-key")).

Definition other_template : uploaded_file := mkFile "b.pdf" "Cycle 1, Day 1: Cisplatin".

(** A reply that parses to a regimen whose cycle has no medications. *)
Definition bare_regimen : json := regimen_of (JDict []).

Definition unnamed_drug : json := JDict [("Items", JList [JDict [("Name", JStr "x")]])].

Definition no_dose_cycle : json :=
  JDict [("duration", JDict [("numberOfDays", JInt 3)]);
         ("medications",
          JDict [("day1",
                  JDict [("chemotherapy",
                          JList [med "Docetaxel" "75mg/m2";
                                 JDict [("name", JStr "Cisplatin")];
                                 med "Etoposide" "100mg/m2"])])])].

Definition zero_day_cycle : json := JDict [("duration", JDict [("numberOfDays", JInt 0)])].

(** Text as the model has it is a sequence of UTF-8 bytes: a code point
    above U+00FF starts with a byte from 196 on. *)
Definition latin1 (s : string) : bool :=
  forallb (fun c => (nat_of_ascii c <? 196)%nat) (list_ascii_of_string s).

(** A lone surrogate, in the three bytes U+D800..U+DFFF would take: 237,
    then a byte from 160 on. *)
Fixpoint has_surrogate (s : string) : bool :=
  match s with
  | String a ((String b _) as rest) =>
      ((nat_of_ascii a =? 237)%nat && (160 <=? nat_of_ascii b)%nat) || has_surrogate rest
  | _ => false
  end.

(** A wire for the scenarios: [quote] refuses lone surrogates and leaves
    the rest as it is, [requests.get] refuses a header value outside Latin-1
    and otherwise gets the drug of the catalog. *)
Definition encoding_wire : Strict.wire :=
  Strict.mkWire
    (fun text => if has_surrogate text then None else Some text)
    (fun _ _ headers =>
       if forallb (fun kv => latin1 (snd kv)) headers
       then Ok (HttpJson 200 found_drug)
       else Raise UnicodeEncodeError).

(** The client id [Ω] (U+03A9) and a name that ends in the lone surrogate
    U+D800. *)
Definition omega : string :=
  String (ascii_of_nat 206) (String (ascii_of_nat 169) EmptyString).

Definition broken_name : string :=
  ("Docetaxel" ++ String (ascii_of_nat 237)
                    (String (ascii_of_nat 160) (String (ascii_of_nat 128) EmptyString)))%string.


(** * Properties *)

(** ** The request helper *)

Lemma make_fdb_request_run (w : world) (endpoint client_id client_secret : string)
  (params : option (list (string * json))) (s : state) :
  let p := store "callid" (JStr (now w (log s)))
             (store "callSystemName" (JStr "ChemoAnalyzer")
                (match params with Some p => p | None => [] end)) in
  make_fdb_request w endpoint client_id client_secret params s =
  (mkState (json_outputs s) (fdb_validation s)
     (log s ++ [FdbGet (mkCall endpoint client_id client_secret p)]),
   except_request_exception
     (attempt (http_get w (log s) (request_url w endpoint p)
                 (request_headers client_id client_secret)))).
Proof. reflexivity. Qed.

Lemma quoted_total (w : world) (params : list (string * json)) :
  Strict.quoted w (wire_of w) params =
  Some (map (fun kv => (fst kv ++ "=" ++ quote w (py_str w (snd kv)))%string) params).
Proof.
  induction params as [| [k v] rest IH]; simpl; [reflexivity |].
  rewrite IH. reflexivity.
Qed.

(** When every parameter can be quoted and [requests.get] raises nothing
    but [RequestException], the function with the encoding errors is the
    [make_fdb_request] of the pipeline. *)
Lemma strict_agrees (w : world) (endpoint client_id client_secret : string)
  (params : option (list (string * json))) (s : state) :
  Strict.make_fdb_request w (wire_of w) endpoint client_id client_secret params s =
  make_fdb_request w endpoint client_id client_secret params s.
Proof.
  unfold Strict.make_fdb_request, make_fdb_request, bind, history.
  unfold Strict.request_url, request_url. rewrite quoted_total.
  destruct (store "callid" (JStr (now w (log s)))
              (store "callSystemName" (JStr "ChemoAnalyzer")
                 match params with Some p => p | None => [] end));
    reflexivity.
Qed.

(** C10, as the code has it: [make_fdb_request] never lets a
    [RequestException] out.  When every parameter can be quoted it calls
    [requests.get] once and returns the success dictionary, with the decoded
    body as ["data"] and the status of the response as ["status_code"], or
    the error dictionary, with the message of the request exception and the
    status of its response, [None] when it has none.  An exception of another
    class propagates: the [UnicodeEncodeError] of [quote], raised before any
    GET, and whatever else [requests.get] raises. *)
Theorem request_exceptions_are_caught (w : world) (x : Strict.wire)
  (endpoint client_id client_secret : string)
  (params : option (list (string * json))) (s : state) :
  let p := store "callid" (JStr (now w (log s)))
             (store "callSystemName" (JStr "ChemoAnalyzer")
                (match params with Some p => p | None => [] end)) in
  let sent := logged s [FdbGet (mkCall endpoint client_id client_secret p)] in
  let run := Strict.make_fdb_request w x endpoint client_id client_secret params s in
  (forall message status, snd run <> Raise (RequestException message status)) /\
  match Strict.request_url w x endpoint p with
  | None => run = (s, Raise UnicodeEncodeError)
  | Some url =>
      match Strict.requests_get x (log s) url (request_headers client_id client_secret) with
      | Ok (HttpJson code data) =>
          run = (sent, Ok (JDict [("status", JStr "success");
                                  ("data", data);
                                  ("status_code", JInt code)]))
      | Ok (HttpStatusError code message) =>
          run = (sent, Ok (JDict [("status", JStr "error");
                                  ("message", JStr message);
                                  ("status_code", JInt code)]))
      | Ok (HttpUndecodable _ message) | Ok (HttpNoResponse message) =>
          run = (sent, Ok (JDict [("status", JStr "error");
                                  ("message", JStr message);
                                  ("status_code", JNull)]))
      | Raise (RequestException message status) =>
          run = (sent, Ok (JDict [("status", JStr "error");
                                  ("message", JStr message);
                                  ("status_code",
                                   match status with Some c => JInt c | None => JNull end)]))
      | Raise e => run = (sent, Raise e)
      end
  end.
Proof.
  cbv zeta. unfold Strict.make_fdb_request, bind, history, emit, lift, logged.
  cbn [log json_outputs fdb_validation].
  destruct (Strict.request_url w x endpoint _) as [url |].
  - destruct (Strict.requests_get x (log s) url (request_headers client_id client_secret))
      as [[code data | code msg | code msg | msg] | e]; simpl.
    1-4: split; [intros m c H; discriminate H | reflexivity].
    destruct e; simpl; (split; [intros m c H; discriminate H | reflexivity]).
  - simpl. split; [intros m c H; discriminate H | reflexivity].
Qed.

(** C10 fails: with the client id [Ω], which no Latin-1 header can carry,
    [requests.get] raises [UnicodeEncodeError] and so does the function; with
    a search text that ends in a lone surrogate [quote] raises it before any
    GET.  In both runs no dictionary is returned. *)
Lemma encoding_errors_propagate :
  latin1 omega = false /\
  Strict.make_fdb_request offline encoding_wire "PrescribableDrugs" omega "secret" None
    empty_session
  = (logged empty_session
       [FdbGet (mkCall "PrescribableDrugs" omega "secret"
                  [("callSystemName", JStr "ChemoAnalyzer");
                   ("callid", JStr "20240101120000")])],
     Raise UnicodeEncodeError) /\
  has_surrogate broken_name = true /\
  Strict.make_fdb_request offline encoding_wire "PrescribableDrugs" "id" "secret"
    (Some (search_params (JStr broken_name))) empty_session
  = (empty_session, Raise UnicodeEncodeError).
Proof. repeat split. Qed.

(** ** Computations that only append to the log *)

Lemma appends_ret {A : Type} (a : A) : appends (ret a).
Proof. intros [jo fv l]. exists []. simpl. rewrite app_nil_r. reflexivity. Qed.

Lemma appends_lift {A : Type} (r : outcome A) : appends (lift r).
Proof. intros [jo fv l]. exists []. simpl. rewrite app_nil_r. reflexivity. Qed.

Lemma appends_bind {A B : Type} (m : M state A) (f : A -> M state B) :
  appends m -> (forall a, appends (f a)) -> appends (bind m f).
Proof.
  intros Hm Hf s. unfold bind. destruct (Hm s) as [t Ht].
  destruct (m s) as [s1 [a | e]]; simpl in Ht; subst s1.
  - destruct (Hf a (mkState (json_outputs s) (fdb_validation s) (log s ++ t))) as [u Hu].
    exists (t ++ u). rewrite Hu. simpl. rewrite app_assoc. reflexivity.
  - exists t. reflexivity.
Qed.

Lemma appends_emit (e : effect) : appends (emit e).
Proof. intros s. exists [e]. reflexivity. Qed.

Lemma appends_history : appends history.
Proof. intros [jo fv l]. exists []. simpl. rewrite app_nil_r. reflexivity. Qed.

Lemma appends_for_each {A B : Type} (body : B -> A -> M state B) (items : list A) :
  (forall acc x, appends (body acc x)) -> forall acc, appends (for_each body acc items).
Proof.
  intros Hbody. induction items as [| x rest IH]; intros acc; simpl.
  - apply appends_ret.
  - apply appends_bind; [apply Hbody | exact IH].
Qed.

Lemma appends_make_fdb_request (w : world) (endpoint client_id client_secret : string)
  (params : option (list (string * json))) :
  appends (make_fdb_request w endpoint client_id client_secret params).
Proof. intros s. rewrite make_fdb_request_run. eexists. reflexivity. Qed.

Create HintDb appends.
#[local] Hint Resolve appends_ret appends_lift appends_emit appends_history
  appends_make_fdb_request : appends.

Ltac appends_steps :=
  repeat first
    [ apply appends_bind; [| intros ?]
    | solve [auto with appends]
    | match goal with |- appends (if ?b then _ else _) => destruct b end
    | match goal with |- appends (match ?x with _ => _ end) => destruct x end ].

Lemma appends_enrich (w : world) (client_id client_secret : string)
  (v : validation) (med : json) :
  appends (enrich w client_id client_secret v med).
Proof. unfold enrich, enrich_resolved. appends_steps. Qed.

Lemma appends_validate (w : world) (regimen_data : json) (client_id client_secret : string) :
  appends (validate_regimen_with_fdb w regimen_data client_id client_secret).
Proof.
  unfold validate_regimen_with_fdb. appends_steps.
  apply appends_for_each. intros acc x. apply appends_enrich.
Qed.


(** ** The upload loop *)

Lemma process_pdf_pages (w : world) (file : uploaded_file) (s : state) (pages : list string) :
  pdf_pages w (log s) file = inr pages ->
  process_pdf w file s =
  (mkState (json_outputs s) (fdb_validation s) (log s ++ [PdfRead (name file)]),
   Ok (page_text pages)).
Proof. intros H. unfold process_pdf, bind, history, emit. simpl. rewrite H. reflexivity. Qed.

(** What [process_upload] does up to [json.loads], for a new document whose
    text was extracted and whose completion call returned [text]. *)
Lemma process_upload_parsed (w : world) (cfg : sidebar) (file : uploaded_file) (s : state)
  (pages : list string) (text : string) :
  has_key (name file) (json_outputs s) = false ->
  pdf_pages w (log s) file = inr pages ->
  nonempty (page_text pages) = true ->
  messages_create w (log s ++ [PdfRead (name file)]) (anthropic_api_key cfg)
    (extraction_prompt (page_text pages)) = Ok text ->
  process_upload w cfg file s =
  (match json_loads w text with
   | Some extracted_data =>
       set_json_output (name file) extracted_data ;;;
       if nonempty (fdb_client_id cfg) && nonempty (fdb_client_secret cfg) then
         validation_results <-
           validate_regimen_with_fdb w extracted_data
             (fdb_client_id cfg) (fdb_client_secret cfg) ;;
         set_fdb_validation (name file) validation_results
       else ret tt
   | None =>
       emit (StError ("Failed to parse JSON for " ++ name file)) ;;;
       emit (StCode text)
   end)
    (mkState (json_outputs s) (fdb_validation s)
       (log s ++ [PdfRead (name file);
                  Completion (anthropic_api_key cfg) (extraction_prompt (page_text pages))])).
Proof.
  intros Hnew Hpdf Htext Hreply. unfold process_upload. rewrite Hnew.
  unfold bind at 1. rewrite (process_pdf_pages _ _ _ _ Hpdf). rewrite Htext.
  unfold bind at 1. unfold history at 1. cbv beta iota.
  unfold bind at 1. unfold emit at 1. cbv beta iota.
  unfold bind at 1. unfold lift at 1. cbv beta iota. simpl log.
  rewrite Hreply. rewrite <- app_assoc. reflexivity.
Qed.

Lemma absent_credentials (cfg : sidebar) :
  fdb_client_id cfg = "" \/ fdb_client_secret cfg = "" ->
  nonempty (fdb_client_id cfg) && nonempty (fdb_client_secret cfg) = false.
Proof.
  intros [H | H]; rewrite H; simpl; [reflexivity | apply andb_false_r].
Qed.

Lemma filter_fdb_app (l t : list effect) :
  forallb (fun e => negb (is_fdb_get e)) t = true ->
  filter is_fdb_get (l ++ t) = filter is_fdb_get l.
Proof.
  intros H. rewrite filter_app.
  assert (E : filter is_fdb_get t = []).
  { induction t as [| e t IH]; [reflexivity |]. simpl in *.
    apply andb_prop in H. destruct H as [He Ht].
    destruct (is_fdb_get e); [discriminate He | exact (IH Ht)]. }
  rewrite E. apply app_nil_r.
Qed.

(** C8: when a credential of the drug-knowledge service is missing, a run
    of the loop body on any document sends no request to that service and
    leaves the stored validations alone; and when the text of a new document
    was extracted and the reply parses, the parsed regimen is stored and the
    run ends normally. *)
Theorem enrichment_skipped_without_credentials (w : world) (cfg : sidebar)
  (file : uploaded_file) (s : state) :
  fdb_client_id cfg = "" \/ fdb_client_secret cfg = "" ->
  filter is_fdb_get (log (fst (process_upload w cfg file s))) = filter is_fdb_get (log s) /\
  fdb_validation (fst (process_upload w cfg file s)) = fdb_validation s /\
  forall pages text extracted_data,
    has_key (name file) (json_outputs s) = false ->
    pdf_pages w (log s) file = inr pages ->
    nonempty (page_text pages) = true ->
    messages_create w (log s ++ [PdfRead (name file)]) (anthropic_api_key cfg)
      (extraction_prompt (page_text pages)) = Ok text ->
    json_loads w text = Some extracted_data ->
    process_upload w cfg file s =
    (mkState (store (name file) extracted_data (json_outputs s)) (fdb_validation s)
       (log s ++ [PdfRead (name file);
                  Completion (anthropic_api_key cfg) (extraction_prompt (page_text pages))]),
     Ok tt).
Proof.
  intros Hcred. apply absent_credentials in Hcred.
  assert (Hrun : exists t,
             forallb (fun e => negb (is_fdb_get e)) t = true /\
             fst (process_upload w cfg file s) =
             mkState (json_outputs (fst (process_upload w cfg file s)))
               (fdb_validation s) (log s ++ t)).
  { unfold process_upload. destruct (has_key (name file) (json_outputs s)).
    - exists []. destruct s; simpl. rewrite app_nil_r. split; reflexivity.
    - unfold process_pdf, bind, history, emit, lift, ret, set_json_output. simpl.
      destruct (pdf_pages w (log s) file) as [msg | pages]; simpl.
      + rewrite <- app_assoc. eexists. split; [| reflexivity]. reflexivity.
      + destruct (nonempty (page_text pages)); simpl.
        * destruct (messages_create w _ _ _) as [text | e]; simpl.
          -- destruct (json_loads w text) as [data |]; simpl.
             ++ rewrite Hcred. simpl. rewrite <- app_assoc.
                eexists. split; [| reflexivity]. reflexivity.
             ++ rewrite <- !app_assoc. eexists. split; [| reflexivity]. reflexivity.
          -- rewrite <- app_assoc. eexists. split; [| reflexivity]. reflexivity.
        * eexists. split; [| reflexivity]. reflexivity. }
  destruct Hrun as [t [Ht Hs']]. repeat split.
  - rewrite Hs'. simpl. apply filter_fdb_app. exact Ht.
  - rewrite Hs'. reflexivity.
  - intros pages text data Hnew Hpdf Htext Hreply Hload.
    rewrite (process_upload_parsed _ _ _ _ _ _ Hnew Hpdf Htext Hreply).
    rewrite Hload. unfold bind, set_json_output. simpl. rewrite Hcred. reflexivity.
Qed.

(** A run of C8: without credentials the template of the scenario is
    stored and nothing is asked of the drug-knowledge service. *)
Lemma enrichment_skipped_without_credentials_run :
  let w := scenario [("{}", regimen_of (JDict []))] "{}" (always (HttpJson 200 found_drug)) in
  process_upload w no_credentials template empty_session =
  (mkState [("a.pdf", regimen_of (JDict []))] []
     [PdfRead "a.pdf";
      Completion "key" (extraction_prompt (page_text [getvalue template]))],
   Ok tt).
Proof.
  intros w.
  pose proof (enrichment_skipped_without_credentials w no_credentials template
                empty_session (or_introl eq_refl)) as [_ [_ H]].
  apply (H [getvalue template] "{}" (regimen_of (JDict []))); reflexivity.
Defined.

Lemma json_outputs_set_fdb_validation (file_name : string) (v : validation) (s : state) :
  json_outputs (fst (set_fdb_validation file_name v s)) = json_outputs s.
Proof. reflexivity. Qed.

(** C6, as the code has it: for a new document whose text was extracted and
    whose completion call returned [text], a reply that [json.loads] rejects
    is shown (an error naming the file, then the reply verbatim) and nothing
    is stored for the document; a reply that [json.loads] accepts is stored
    as parsed, whatever its structure. *)
Theorem unparsable_reply_shown_not_stored (w : world) (cfg : sidebar)
  (file : uploaded_file) (s : state) (pages : list string) (text : string) :
  has_key (name file) (json_outputs s) = false ->
  pdf_pages w (log s) file = inr pages ->
  nonempty (page_text pages) = true ->
  messages_create w (log s ++ [PdfRead (name file)]) (anthropic_api_key cfg)
    (extraction_prompt (page_text pages)) = Ok text ->
  (json_loads w text = None ->
   process_upload w cfg file s =
   (mkState (json_outputs s) (fdb_validation s)
      (log s ++ [PdfRead (name file);
                 Completion (anthropic_api_key cfg) (extraction_prompt (page_text pages));
                 StError ("Failed to parse JSON for " ++ name file);
                 StCode text]),
    Ok tt)) /\
  (forall extracted_data,
     json_loads w text = Some extracted_data ->
     json_outputs (fst (process_upload w cfg file s)) =
     store (name file) extracted_data (json_outputs s)).
Proof.
  intros Hnew Hpdf Htext Hreply.
  rewrite (process_upload_parsed _ _ _ _ _ _ Hnew Hpdf Htext Hreply). split.
  - intros Hload. rewrite Hload. unfold bind, emit. simpl.
    rewrite <- !app_assoc. reflexivity.
  - intros data Hload. rewrite Hload. unfold bind at 1. unfold set_json_output at 1.
    cbv beta iota. simpl log. simpl json_outputs. simpl fdb_validation.
    destruct (nonempty (fdb_client_id cfg) && nonempty (fdb_client_secret cfg)).
    + unfold bind.
      match goal with
      | |- context [validate_regimen_with_fdb ?a ?b ?c ?d ?st] =>
          destruct (appends_validate a b c d st) as [t Ht];
          destruct (validate_regimen_with_fdb a b c d st) as [s1 [v | e]]
      end; simpl in Ht; subst s1; reflexivity.
    + reflexivity.
Qed.

(** A run of C6: the reply ["not json"] is shown and nothing is stored. *)
Lemma unparsable_reply_shown_not_stored_run :
  let w := scenario [] "not json" (always (HttpJson 200 found_drug)) in
  process_upload w credentials template empty_session =
  (mkState [] []
     [PdfRead "a.pdf";
      Completion "key" (extraction_prompt (page_text [getvalue template]));
      StError "Failed to parse JSON for a.pdf";
      StCode "not json"],
   Ok tt).
Proof.
  intros w.
  apply (proj1 (unparsable_reply_shown_not_stored w credentials template empty_session
                  [getvalue template] "not json" eq_refl eq_refl eq_refl eq_refl)).
  reflexivity.
Defined.

(** C6 fails for valid JSON without the regimen structure: the reply [{}]
    has no [phase1], and is stored as the document's regimen with no error
    shown. *)
Lemma structureless_reply_is_stored :
  let w := scenario [("{}", JDict [])] "{}" (always (HttpJson 200 found_drug)) in
  json_loads w "{}" = Some (JDict []) /\
  Py.contains_key "phase1" (JDict []) = Ok false /\
  process_upload w credentials template empty_session =
  (mkState [("a.pdf", JDict [])] [("a.pdf", [])]
     [PdfRead "a.pdf";
      Completion "key" (extraction_prompt (page_text [getvalue template]))],
   Ok tt).
Proof. repeat split. Qed.

Lemma process_upload_stored (w : world) (cfg : sidebar) (file : uploaded_file) (s : state) :
  has_key (name file) (json_outputs s) = true ->
  process_upload w cfg file s = (s, Ok tt).
Proof. intros H. unfold process_upload. rewrite H. reflexivity. Qed.

(** C7, as the code has it: when every uploaded document already has a
    stored regimen, a run of the upload loop does nothing: no extraction, no
    completion, no enrichment, and the session state is the same. *)
Theorem stored_documents_are_skipped (w : world) (cfg : sidebar)
  (uploaded_files : list uploaded_file) (s : state) :
  (forall file, In file uploaded_files -> has_key (name file) (json_outputs s) = true) ->
  process_uploads w cfg uploaded_files s = (s, Ok tt).
Proof.
  unfold process_uploads. induction uploaded_files as [| file rest IH]; intros H.
  - reflexivity.
  - simpl. unfold bind. rewrite process_upload_stored by (apply H; left; reflexivity).
    apply IH. intros f Hf. apply H. right. exact Hf.
Qed.

(** A run of C7: a second pass over a stored template changes nothing. *)
Lemma stored_documents_are_skipped_run :
  let w := scenario [("{}", regimen_of (JDict []))] "{}" (always (HttpJson 200 found_drug)) in
  let s := fst (process_uploads w no_credentials [template] empty_session) in
  process_uploads w no_credentials [template] s = (s, Ok tt).
Proof.
  intros w s. apply stored_documents_are_skipped.
  intros file [E | []]. subst file. reflexivity.
Defined.

(** C7 fails for a document whose reply did not parse: the first pass
    stores nothing for it, and the second pass extracts its text and calls
    the completion service again. *)
Lemma unparsed_document_is_processed_again :
  let w := scenario [] "not json" (always (HttpJson 200 found_drug)) in
  let first_pass :=
    [PdfRead "a.pdf";
     Completion "key" (extraction_prompt (page_text [getvalue template]));
     StError "Failed to parse JSON for a.pdf";
     StCode "not json"] in
  let s := fst (process_uploads w credentials [template] empty_session) in
  s = mkState [] [] first_pass /\
  process_uploads w credentials [template] s =
  (mkState [] [] (first_pass ++ first_pass), Ok tt).
Proof. split; reflexivity. Qed.

(** ** The treatment calendar *)

Lemma show_meds_ok (meds : list json) :
  forallb med_ok meds = true ->
  forall out, for_each show_med tt meds out = (out ++ map med_line meds, Ok tt).
Proof.
  induction meds as [| m rest IH]; intros Hok out; simpl.
  - rewrite app_nil_r. reflexivity.
  - simpl in Hok. apply andb_prop in Hok. destruct Hok as [Hm Hrest].
    destruct m as [| | | | | d]; try discriminate Hm.
    simpl in Hm. apply andb_prop in Hm. destruct Hm as [Hn Hd].
    unfold has_key, ahas in Hn, Hd.
    unfold bind at 1. unfold show_med, bind, lift, st_markdown, med_line, name_dose.
    simpl. unfold lookup.
    destruct (aget String.eqb "name" d) as [n |]; [| discriminate Hn].
    destruct (aget String.eqb "dose" d) as [ds |]; [| discriminate Hd].
    simpl. rewrite (IH Hrest). rewrite <- app_assoc. reflexivity.
Qed.

Lemma show_med_type_ok (medications : list (string * json)) (med_type : string) :
  group_ok medications med_type = true ->
  forall out,
    show_med_type (JDict medications) tt med_type out =
    (out ++ map med_line (group medications med_type), Ok tt).
Proof.
  unfold group_ok, group, show_med_type, bind, lift. simpl.
  unfold has_key, ahas, lookup.
  destruct (aget String.eqb med_type medications) as [[| | | | meds |] |];
    intros H out; try discriminate H; simpl.
  - apply show_meds_ok. exact H.
  - rewrite app_nil_r. reflexivity.
Qed.

Lemma show_day_other (cycle_data : json) (day : Z) :
  day <> 1 -> show_day cycle_data day [] = ([MdDay day], Ok tt).
Proof.
  intros H. unfold show_day, bind, st_markdown. simpl.
  destruct (Z.eqb_spec day 1) as [E | _]; [contradiction | reflexivity].
Qed.

Lemma show_day_first (cycle_data : json) (medications : list (string * json)) :
  day1_of cycle_data = Ok (JDict medications) ->
  group_ok medications "chemotherapy" = true ->
  group_ok medications "targetedTherapy" = true ->
  show_day cycle_data 1 [] = (MdDay 1 :: map med_line (shown_on_day1 medications), Ok tt).
Proof.
  intros Hday Hc Ht. unfold show_day, bind, st_markdown, lift. simpl. rewrite Hday.
  unfold bind. rewrite (show_med_type_ok _ _ Hc). rewrite (show_med_type_ok _ _ Ht).
  unfold shown_on_day1. rewrite map_app. simpl. reflexivity.
Qed.

Lemma show_days_other (cycle_data : json) (days : list Z) :
  Forall (fun day => day <> 1) days ->
  forall page, show_days cycle_data days page = (page ++ map heading_only days, Ok tt).
Proof.
  induction 1 as [| day rest Hday _ IH]; intros page; simpl.
  - rewrite app_nil_r. reflexivity.
  - rewrite (show_day_other _ _ Hday). rewrite IH. rewrite <- app_assoc. reflexivity.
Qed.

Lemma range_cons (lo hi : Z) : lo < hi -> Py.range lo hi = lo :: Py.range (lo + 1) hi.
Proof.
  intros H. unfold Py.range.
  replace (Z.to_nat (hi - lo)) with (S (Z.to_nat (hi - (lo + 1)))) by lia.
  rewrite <- cons_seq. simpl. f_equal.
  - lia.
  - rewrite <- seq_shift. rewrite map_map. apply map_ext. intros i. lia.
Qed.

Lemma range_length (lo hi : Z) : List.length (Py.range lo hi) = Z.to_nat (hi - lo).
Proof. unfold Py.range. rewrite length_map. apply length_seq. Qed.

Lemma range_nth (lo hi : Z) (i : nat) (d : Z) :
  nth_error (Py.range lo hi) i = Some d -> d = lo + Z.of_nat i.
Proof.
  unfold Py.range. intros H. rewrite nth_error_map in H.
  destruct (nth_error (seq 0 (Z.to_nat (hi - lo))) i) as [k |] eqn:E; [| discriminate H].
  simpl in H. injection H as <-.
  assert (Hi : (i < List.length (seq 0 (Z.to_nat (hi - lo))))%nat).
  { apply nth_error_Some. rewrite E. discriminate. }
  rewrite length_seq in Hi.
  rewrite nth_error_seq in E.
  destruct (Nat.ltb_spec i (Z.to_nat (hi - lo))) as [_ | Hge]; [| lia].
  injection E as <-. reflexivity.
Qed.

Lemma range_from (lo hi : Z) : Forall (fun d => lo <= d) (Py.range lo hi).
Proof.
  unfold Py.range. apply Forall_forall. intros d Hd.
  apply in_map_iff in Hd. destruct Hd as [i [<- _]]. lia.
Qed.

(** The page of the calendar for a cycle of [n >= 1] days whose day-1
    schedule can be written out. *)
Lemma calendar_page (w : world) (regimen_data cycle_data : json)
  (medications : list (string * json)) (n : Z) :
  Py.contains_key "phase1" regimen_data = Ok true ->
  cycle_of regimen_data = Ok cycle_data ->
  cycle_length_of w cycle_data = Ok n ->
  0 < n ->
  day1_of cycle_data = Ok (JDict medications) ->
  group_ok medications "chemotherapy" = true ->
  group_ok medications "targetedTherapy" = true ->
  calendar w regimen_data [] =
  (mkContainer 1 (MdDay 1 :: map med_line (shown_on_day1 medications))
     :: map heading_only (Py.range 2 (n + 1)),
   Ok tt).
Proof.
  intros Hphase Hcycle Hlen Hpos Hday Hc Ht.
  unfold calendar, bind, lift. rewrite Hphase, Hcycle, Hlen.
  rewrite range_cons by lia. simpl show_days.
  rewrite (show_day_first _ _ Hday Hc Ht).
  rewrite show_days_other.
  - reflexivity.
  - eapply Forall_impl; [| apply (range_from (1 + 1))]. simpl. intros d Hd. lia.
Qed.

Lemma meds_of_lines (col day : Z) (meds : list json) :
  meds_of (mkContainer col (MdDay day :: map med_line meds)) = map name_dose meds.
Proof.
  unfold meds_of. simpl. induction meds as [| m rest IH]; simpl.
  - reflexivity.
  - rewrite IH. destruct (name_dose m). reflexivity.
Qed.

(** C1, as the code has it: for a cycle of [n > 0] days whose day-1 schedule
    can be written out, the calendar has exactly [n] day entries, the entry
    at position [i] (from 0) is headed with day [i + 1] and sits in column
    [(i + 1) % 7], the first entry lists the chemotherapy and then the
    targetedTherapy medications of the day-1 schedule, and every later entry
    is empty. *)
Theorem calendar_day_entries (w : world) (regimen_data cycle_data : json)
  (medications : list (string * json)) (n : Z) :
  Py.contains_key "phase1" regimen_data = Ok true ->
  cycle_of regimen_data = Ok cycle_data ->
  cycle_length_of w cycle_data = Ok n ->
  0 < n ->
  day1_of cycle_data = Ok (JDict medications) ->
  group_ok medications "chemotherapy" = true ->
  group_ok medications "targetedTherapy" = true ->
  exists page,
    calendar w regimen_data [] = (page, Ok tt) /\
    List.length page = Z.to_nat n /\
    forall i c,
      nth_error page i = Some c ->
      day_of c = Some (Z.of_nat i + 1) /\
      column c = (Z.of_nat i + 1) mod 7 /\
      meds_of c = match i with
                  | O => map name_dose (shown_on_day1 medications)
                  | S _ => []
                  end.
Proof.
  intros Hphase Hcycle Hlen Hpos Hday Hc Ht.
  eexists. split; [apply (calendar_page _ _ _ _ _ Hphase Hcycle Hlen Hpos Hday Hc Ht) |].
  split.
  - simpl. rewrite length_map, range_length. lia.
  - intros [| j] c Hnth; simpl in Hnth.
    + injection Hnth as <-. repeat split. apply meds_of_lines.
    + rewrite nth_error_map in Hnth.
      destruct (nth_error (Py.range 2 (n + 1)) j) as [d |] eqn:E; [| discriminate Hnth].
      apply range_nth in E. simpl in Hnth. injection Hnth as <-. subst d.
      replace (Z.of_nat (S j) + 1) with (2 + Z.of_nat j) by lia.
      repeat split.
Qed.

(** A run of C1: the two-day cycle of the scenario. *)
Lemma calendar_day_entries_run :
  exists page,
    calendar offline (regimen_of two_day_cycle) [] = (page, Ok tt) /\
    List.length page = 2%nat /\
    forall i c,
      nth_error page i = Some c ->
      day_of c = Some (Z.of_nat i + 1) /\
      column c = (Z.of_nat i + 1) mod 7 /\
      meds_of c = match i with
                  | O => [(JStr "Docetaxel", JStr "75mg/m2")]
                  | S _ => []
                  end.
Proof.
  apply (calendar_day_entries offline (regimen_of two_day_cycle) two_day_cycle
           [("chemotherapy", JList [med "Docetaxel" "75mg/m2"])] 2);
    solve [reflexivity | lia].
Defined.

(** C1 fails on days other than day 1: the cycle of the scenario schedules
    Cisplatin on day 2, and the entry of day 2 is empty.  It also fails when
    day 1 has no schedule: the calendar stops with [KeyError] under the
    heading of day 1. *)
Lemma later_days_are_shown_empty :
  Py.getitem two_day_cycle "medications" =
    Ok (JDict [("day1", docetaxel_day); ("day2", cisplatin_day)]) /\
  calendar offline (regimen_of two_day_cycle) [] =
    ([mkContainer 1 [MdDay 1; MdMed (JStr "Docetaxel") (JStr "75mg/m2")];
      mkContainer 2 [MdDay 2]],
     Ok tt) /\
  calendar offline (regimen_of cycle_without_day1) [] =
    ([mkContainer 1 [MdDay 1]], Raise KeyError).
Proof. repeat split. Qed.




(** ** The enrichment loop *)

Lemma succeeded_attempt (o : http_outcome) :
  exists d, except_request_exception (attempt o) = Ok (JDict d) /\
    match o with
    | HttpJson _ data =>
        succeeded (JDict d) = Ok true /\ Py.getitem (JDict d) "data" = Ok data
    | _ => succeeded (JDict d) = Ok false /\ Py.get (JDict d) "data" (JDict []) = Ok (JDict [])
    end /\
    Py.get (JDict d) "data" (JDict []) = Ok (data_of o).
Proof.
  destruct o; simpl; eexists; (split; [reflexivity |]); repeat split.
Qed.

Lemma has_items_getitem (drug_data : json) :
  has_items drug_data = Ok true -> exists items, Py.getitem drug_data "Items" = Ok items.
Proof.
  unfold has_items. destruct (Py.contains_key "Items" drug_data) as [[|] | e];
    try discriminate.
  destruct (Py.getitem drug_data "Items") as [items | e]; [| discriminate].
  intros _. exists items. reflexivity.
Qed.

(** The loop body in terms of the answers of the service. *)
Lemma enrich_eq (w : world) (client_id client_secret : string) (v : validation)
  (med : json) (s : state) :
  enrich w client_id client_secret v med s =
  match Py.getitem med "name" with
  | Ok med_name =>
      match fetched w client_id client_secret med_name s with
      | (s1, Ok r) => (s1, assigned v r)
      | (s1, Raise e) => (s1, Raise e)
      end
  | Raise e => (s, Raise e)
  end.
Proof.
  unfold enrich. unfold bind at 1. unfold lift at 1.
  destruct (Py.getitem med "name") as [n | e]; [| reflexivity].
  unfold bind at 1. rewrite make_fdb_request_run. cbv zeta.
  unfold fetched, search_result, search_call. cbn [call_params].
  match goal with
  | |- context [attempt ?o] =>
      destruct (succeeded_attempt o) as [d [Ed [Hd Hget]]]; rewrite Ed;
      destruct o as [code data | code msg | code msg | msg]
  end.
  2-4: destruct Hd as [Hs _]; unfold bind, lift; rewrite Hs; reflexivity.
  destruct Hd as [Hs Hdata]. unfold bind at 1. unfold lift at 1. rewrite Hs.
  unfold bind at 1. unfold lift at 1. rewrite Hdata.
  unfold bind at 1. unfold lift at 1.
  destruct (has_items data) as [[|] | e] eqn:Hitems; try reflexivity.
  destruct (has_items_getitem _ Hitems) as [items Eitems].
  unfold resolve, enrich_resolved. cbv beta iota delta [bind lift ret]. rewrite Eitems.
  destruct (Py.first items) as [item | e]; [| reflexivity].
  destruct (Py.getitem item "PrescribableDrugID") as [drug_id | e]; [| reflexivity].
  rewrite make_fdb_request_run. cbv zeta.
  match goal with
  | |- context [attempt ?o] =>
      destruct (succeeded_attempt o) as [d1 [Ed1 [_ Hget1]]]; rewrite Ed1
  end.
  rewrite make_fdb_request_run. cbv zeta.
  match goal with
  | |- context [attempt ?o] =>
      destruct (succeeded_attempt o) as [d2 [Ed2 [_ Hget2]]]; rewrite Ed2
  end.
  rewrite Hget1, Hget2. cbn [log].
  unfold logged, plain_result, plain_call, assigned. cbn [call_params].
  rewrite <- !app_assoc. reflexivity.
Qed.

(** C4, as the code has it: when the search for a medication fails, or
    succeeds without a match, the loop body has sent the search and nothing
    else (no interactions request, no dosing request) and leaves the result
    mapping as it was: nothing is recorded for the medication. *)
Theorem unresolved_search_records_nothing (w : world) (client_id client_secret : string)
  (v : validation) (med med_name : json) (s : state) :
  Py.getitem med "name" = Ok med_name ->
  ((forall code data,
      search_result w client_id client_secret med_name (log s) <> HttpJson code data) \/
   (exists code data,
      search_result w client_id client_secret med_name (log s) = HttpJson code data /\
      has_items data = Ok false)) ->
  enrich w client_id client_secret v med s =
  (logged s [FdbGet (search_call w client_id client_secret med_name (log s))], Ok v).
Proof.
  intros Hname Hsearch. rewrite enrich_eq, Hname. unfold fetched.
  destruct Hsearch as [Hfail | [code [data [Hfound Hnone]]]].
  - destruct (search_result w client_id client_secret med_name (log s)) as [code data | | |];
      try reflexivity.
    exfalso. apply (Hfail code data). reflexivity.
  - rewrite Hfound, Hnone. reflexivity.
Qed.

(** A run of C4: the search for Docetaxel gets no response. *)
Lemma unresolved_search_records_nothing_run :
  enrich offline "id" "secret" [] (med "Docetaxel" "75mg/m2") empty_session =
  (logged empty_session
     [FdbGet (search_call offline "id" "secret" (JStr "Docetaxel") [])],
   Ok []).
Proof.
  apply (unresolved_search_records_nothing offline "id" "secret" []
           (med "Docetaxel" "75mg/m2") (JStr "Docetaxel") empty_session eq_refl).
  left. intros code data H. discriminate H.
Defined.

(** C4 fails: with a service that does not respond, and with one that
    finds no match, the regimen's only medication has no entry in the
    result. *)
Lemma unresolved_name_is_omitted :
  day1_meds (regimen_of cycle_without_duration) = Ok [med "Docetaxel" "75mg/m2"] /\
  snd (validate_regimen_with_fdb offline (regimen_of cycle_without_duration)
         "id" "secret" empty_session) = Ok [] /\
  snd (validate_regimen_with_fdb unmatched (regimen_of cycle_without_duration)
         "id" "secret" empty_session) = Ok [] /\
  vget (JStr "Docetaxel") [] = None.
Proof. repeat split. Qed.

(** *** The result mapping *)

Lemma key_eqb_eq (a b : Py.key) : Py.key_eqb a b = true <-> a = b.
Proof.
  destruct a, b; simpl; split; intros H; try discriminate H; try reflexivity.
  - apply Z.eqb_eq in H. congruence.
  - injection H as ->. apply Z.eqb_refl.
  - apply String.eqb_eq in H. congruence.
  - injection H as ->. apply String.eqb_refl.
Qed.

Lemma same_key_hash (a b : json) :
  same_key a b = true <-> exists x, Py.hash a = Some x /\ Py.hash b = Some x.
Proof.
  unfold same_key. destruct (Py.hash a) as [x |], (Py.hash b) as [y |]; split.
  - intros H. apply key_eqb_eq in H. subst y. exists x. split; reflexivity.
  - intros [z [H1 H2]]. apply key_eqb_eq. congruence.
  - discriminate.
  - intros [z [H1 H2]]. discriminate H2.
  - discriminate.
  - intros [z [H1 H2]]. discriminate H1.
  - discriminate.
  - intros [z [H1 H2]]. discriminate H1.
Qed.

Lemma same_key_sym (a b : json) : same_key a b = same_key b a.
Proof.
  destruct (same_key a b) eqn:E1, (same_key b a) eqn:E2; try reflexivity.
  - apply same_key_hash in E1. destruct E1 as [x [H1 H2]].
    assert (E : same_key b a = true) by (apply same_key_hash; exists x; split; assumption).
    congruence.
  - apply same_key_hash in E2. destruct E2 as [x [H1 H2]].
    assert (E : same_key a b = true) by (apply same_key_hash; exists x; split; assumption).
    congruence.
Qed.

Lemma same_key_trans (a b c : json) :
  same_key a b = true -> same_key c b = same_key c a.
Proof.
  intros H. apply same_key_hash in H. destruct H as [x [Ha Hb]].
  unfold same_key. rewrite Ha, Hb. reflexivity.
Qed.

Lemma same_key_refl (a : json) : Py.hash a <> None -> same_key a a = true.
Proof.
  intros H. apply same_key_hash. destruct (Py.hash a) as [x |]; [| contradiction].
  exists x. split; reflexivity.
Qed.

Lemma vget_aset (k k' : json) (e : entry) (v : validation) :
  Py.hash k <> None ->
  vget k' (aset same_key k e v) = if same_key k' k then Some e else vget k' v.
Proof.
  intros Hk. unfold vget. induction v as [| [k0 e0] rest IH]; simpl.
  - reflexivity.
  - destruct (same_key k k0) eqn:E; simpl.
    + rewrite (same_key_trans _ _ k' E). destruct (same_key k' k); reflexivity.
    + rewrite IH. destruct (same_key k' k0) eqn:E0; [| reflexivity].
      destruct (same_key k' k) eqn:E1; [| reflexivity].
      apply same_key_hash in E0. destruct E0 as [y [H0 H0']].
      apply same_key_hash in E1. destruct E1 as [x [H1 H2]].
      assert (F : same_key k k0 = true).
      { apply same_key_hash. exists x. split; [exact H2 | congruence]. }
      congruence.
Qed.

Lemma aset_names (k k' : json) (e : entry) (v : validation) :
  In k' (map fst (aset same_key k e v)) -> In k' (map fst v) \/ k' = k.
Proof.
  induction v as [| [k0 e0] rest IH]; simpl.
  - intros [H | []]. right. symmetry. exact H.
  - destruct (same_key k k0); simpl.
    + intros H. left. exact H.
    + intros [H | H]; [left; left; exact H |].
      destruct (IH H) as [H' | H']; [left; right; exact H' | right; exact H'].
Qed.

Lemma aset_distinct (k : json) (e : entry) (v : validation) :
  distinct_names v -> distinct_names (aset same_key k e v).
Proof.
  unfold distinct_names. induction 1 as [| [k0 e0] rest Hhead Htail IH]; simpl.
  - apply FOP_cons; [constructor | constructor].
  - destruct (same_key k k0) eqn:E.
    + apply FOP_cons; assumption.
    + apply FOP_cons; [| exact IH].
      apply Forall_forall. intros [k1 e1] Hin. simpl.
      assert (Hk1 : In k1 (map fst (aset same_key k e rest))).
      { apply in_map_iff. exists (k1, e1). split; [reflexivity | exact Hin]. }
      apply aset_names in Hk1. destruct Hk1 as [Hk1 | ->].
      * apply in_map_iff in Hk1. destruct Hk1 as [[k2 e2] [E2 Hin2]]. simpl in E2. subst k2.
        rewrite Forall_forall in Hhead. apply (Hhead (k1, e2) Hin2).
      * rewrite same_key_sym. exact E.
Qed.

Lemma assigned_ok (v v1 : validation) (r : option (json * entry)) :
  assigned v r = Ok v1 ->
  (r = None /\ v1 = v) \/
  (exists k e, r = Some (k, e) /\ Py.hash k <> None /\ v1 = aset same_key k e v).
Proof.
  destruct r as [[k e] |]; simpl.
  - unfold vset. destruct (Py.hash k) as [x |] eqn:E; intros H; [| discriminate H].
    injection H as <-. right. exists k, e. repeat split. rewrite E. discriminate.
  - intros H. injection H as <-. left. split; reflexivity.
Qed.

(** *** The loop *)

Lemma searched_app (l t : list effect) : searched (l ++ t) = searched l ++ searched t.
Proof. unfold searched. apply flat_map_app. Qed.

(** What a run of [fetched] leaves in the log and hands over. *)
Lemma fetched_run (w : world) (client_id client_secret : string) (med_name : json)
  (s s1 : state) (r : outcome (option (json * entry))) :
  fetched w client_id client_secret med_name s = (s1, r) ->
  searched (log s1) = searched (log s) ++ [med_name] /\
  (List.length (log s) < List.length (log s1))%nat /\
  forall k e, r = Ok (Some (k, e)) -> k = med_name.
Proof.
  unfold fetched.
  destruct (search_result w client_id client_secret med_name (log s)) as [code data | | |].
  1: destruct (has_items data) as [[|] | e0].
  1: destruct (resolve data) as [[item drug_id] | e0].
  all: intros H; injection H as <- <-; cbn [logged log].
  all: rewrite searched_app, ?length_app; cbn [List.length].
  all: split; [| split; [lia | intros k e H; try discriminate H]].
  all: try reflexivity.
  injection H as -> _. reflexivity.
Qed.

Lemma enrich_ok (w : world) (client_id client_secret : string) (v v1 : validation)
  (med : json) (s s1 : state) :
  enrich w client_id client_secret v med s = (s1, Ok v1) ->
  exists med_name r,
    Py.getitem med "name" = Ok med_name /\
    fetched w client_id client_secret med_name s = (s1, Ok r) /\
    assigned v r = Ok v1.
Proof.
  rewrite enrich_eq. destruct (Py.getitem med "name") as [n | e]; [| discriminate].
  destruct (fetched w client_id client_secret n s) as [s' [r | e]] eqn:E; [| discriminate].
  intros H. injection H as -> H. exists n, r. split; [reflexivity |]. split; assumption.
Qed.

Lemma for_each_enrich_ok (w : world) (client_id client_secret : string) (meds : list json) :
  forall (v v1 : validation) (s s1 : state),
    for_each (enrich w client_id client_secret) v meds s = (s1, Ok v1) ->
    exists names,
      names_of meds = Ok names /\
      searched (log s1) = searched (log s) ++ names /\
      (forall k, In k (map fst v1) -> In k (map fst v) \/ In k names) /\
      (distinct_names v -> distinct_names v1) /\
      (forall k, vget k v <> None -> vget k v1 <> None).
Proof.
  induction meds as [| m rest IH]; intros v v1 s s1; simpl.
  - intros H. injection H as <- <-. exists []. rewrite app_nil_r.
    repeat split; auto.
  - unfold bind.
    destruct (enrich w client_id client_secret v m s) as [s' [v' | e]] eqn:Estep;
      [| discriminate].
    intros Hrest. apply enrich_ok in Estep.
    destruct Estep as [n [r [Hname [Hfetch Hassign]]]].
    apply fetched_run in Hfetch. destruct Hfetch as [Hlog [_ Hkey]].
    destruct (IH _ _ _ _ Hrest) as [names [Hnames [Hlog' [Hkeys [Hdist Hkeep]]]]].
    exists (n :: names). rewrite Hname, Hnames. split; [reflexivity |].
    split; [rewrite Hlog', Hlog, <- app_assoc; reflexivity |].
    apply assigned_ok in Hassign.
    destruct Hassign as [[-> ->] | [k [e [-> [Hhash ->]]]]].
    + repeat split; auto.
      intros k Hk. destruct (Hkeys k Hk) as [H | H]; [left | right; right]; exact H.
    + rewrite (Hkey k e eq_refl) in *. repeat split.
      * intros k' Hk'. destruct (Hkeys k' Hk') as [H | H]; [| right; right; exact H].
        apply aset_names in H. destruct H as [H | ->]; [left; exact H | right; left; reflexivity].
      * intros H. apply Hdist. apply aset_distinct. exact H.
      * intros k' Hk'. apply Hkeep. rewrite vget_aset by exact Hhash.
        destruct (same_key k' n); [discriminate | exact Hk'].
Qed.

Lemma day1_meds_phase (regimen_data : json) (meds : list json) :
  day1_meds regimen_data = Ok meds ->
  Py.truthy regimen_data = true /\ Py.contains_key "phase1" regimen_data = Ok true.
Proof.
  unfold day1_meds, cycle_of.
  destruct regimen_data as [| | | | | d]; try discriminate. simpl.
  unfold has_key, ahas, lookup. destruct d as [| kv d]; [discriminate |].
  destruct (aget String.eqb "phase1" (kv :: d)); [| discriminate].
  intros _. split; reflexivity.
Qed.

Lemma validate_loop (w : world) (regimen_data : json) (client_id client_secret : string)
  (meds : list json) (s : state) :
  day1_meds regimen_data = Ok meds ->
  validate_regimen_with_fdb w regimen_data client_id client_secret s =
  for_each (enrich w client_id client_secret) [] meds s.
Proof.
  intros H. destruct (day1_meds_phase _ _ H) as [Htruthy Hphase].
  unfold validate_regimen_with_fdb. rewrite Htruthy. simpl.
  unfold bind, lift. rewrite Hphase. simpl. rewrite H. reflexivity.
Qed.




Lemma for_each_app {S A B : Type} (body : B -> A -> M S B) (l1 l2 : list A) :
  forall (acc : B) (s : S),
    for_each body acc (l1 ++ l2) s =
    match for_each body acc l1 s with
    | (s1, Ok acc1) => for_each body acc1 l2 s1
    | (s1, Raise e) => (s1, Raise e)
    end.
Proof.
  induction l1 as [| x rest IH]; intros acc s; simpl.
  - reflexivity.
  - unfold bind. destruct (body acc x s) as [s' [acc' | e]]; [apply IH | reflexivity].
Qed.

Lemma names_of_in (meds : list json) :
  forall names k,
    names_of meds = Ok names -> In k names ->
    exists med, In med meds /\ Py.getitem med "name" = Ok k.
Proof.
  induction meds as [| m rest IH]; intros names k; simpl.
  - intros H. injection H as <-. intros [].
  - destruct (Py.getitem m "name") as [n | e] eqn:En; [| discriminate].
    destruct (names_of rest) as [ns | e]; [| discriminate].
    intros H. injection H as <-. intros [<- | Hin].
    + exists m. split; [left; reflexivity | exact En].
    + destruct (IH ns k eq_refl Hin) as [med [Hmed Hname]].
      exists med. split; [right; exact Hmed | exact Hname].
Qed.

Lemma get_group (medications : list (string * json)) (med_type : string) :
  group_is_list medications med_type = true ->
  Py.get (JDict medications) med_type (JList []) = Ok (JList (group medications med_type)).
Proof.
  unfold group_is_list, group. simpl.
  destruct (lookup med_type medications) as [[| | | | l |] |]; try discriminate; reflexivity.
Qed.

Lemma day1_meds_groups (regimen_data cycle_data : json) (medications : list (string * json)) :
  cycle_of regimen_data = Ok cycle_data ->
  day1_of cycle_data = Ok (JDict medications) ->
  group_is_list medications "pretreatmentMedications" = true ->
  group_is_list medications "chemotherapy" = true ->
  group_is_list medications "targetedTherapy" = true ->
  day1_meds regimen_data = Ok (enriched_groups medications).
Proof.
  intros Hcycle Hday Hp Hc Ht. unfold day1_meds, all_meds. rewrite Hcycle, Hday.
  rewrite (get_group _ _ Hp), (get_group _ _ Hc), (get_group _ _ Ht). simpl.
  unfold enriched_groups. rewrite app_assoc. reflexivity.
Qed.

(** C3, as the code has it: the result covers the day-1 schedule only.
    Every key is the [name] of a medication in the pretreatment, chemotherapy
    or targetedTherapy group of day 1, and every medication of these groups
    whose search found a drug has an entry under its name. *)
Theorem day1_medications_covered (w : world) (regimen_data cycle_data : json)
  (medications : list (string * json)) (client_id client_secret : string)
  (s s1 : state) (v : validation) :
  cycle_of regimen_data = Ok cycle_data ->
  day1_of cycle_data = Ok (JDict medications) ->
  group_is_list medications "pretreatmentMedications" = true ->
  group_is_list medications "chemotherapy" = true ->
  group_is_list medications "targetedTherapy" = true ->
  validate_regimen_with_fdb w regimen_data client_id client_secret s = (s1, Ok v) ->
  (forall k, In k (map fst v) ->
     exists med, In med (enriched_groups medications) /\ Py.getitem med "name" = Ok k) /\
  (forall pre med post s0 v0 med_name code data,
     enriched_groups medications = pre ++ med :: post ->
     for_each (enrich w client_id client_secret) [] pre s = (s0, Ok v0) ->
     Py.getitem med "name" = Ok med_name ->
     search_result w client_id client_secret med_name (log s0) = HttpJson code data ->
     has_items data = Ok true ->
     exists e, vget med_name v = Some e).
Proof.
  intros Hcycle Hday Hp Hc Ht Hrun.
  pose proof (day1_meds_groups _ _ _ Hcycle Hday Hp Hc Ht) as Hmeds.
  rewrite (validate_loop _ _ _ _ _ _ Hmeds) in Hrun. split.
  - apply for_each_enrich_ok in Hrun.
    destruct Hrun as [names [Hnames [_ [Hkeys _]]]].
    intros k Hk. destruct (Hkeys k Hk) as [[] | Hin].
    exact (names_of_in _ _ _ Hnames Hin).
  - intros pre m post s0 v0 n code data Hsplit Hpre Hname Hsearch Hitems.
    rewrite Hsplit, for_each_app, Hpre in Hrun. simpl in Hrun. unfold bind in Hrun.
    rewrite enrich_eq, Hname in Hrun. unfold fetched in Hrun.
    rewrite Hsearch, Hitems in Hrun.
    destruct (resolve data) as [[item drug_id] | e]; [| discriminate Hrun].
    cbn [assigned] in Hrun. unfold vset in Hrun.
    destruct (Py.hash n) as [x |] eqn:Hhash; [| discriminate Hrun].
    apply for_each_enrich_ok in Hrun. destruct Hrun as [_ [_ [_ [_ [_ Hkeep]]]]].
    match type of Hkeep with
    | context [aset same_key n ?e v0] => specialize (Hkeep n); rewrite vget_aset in Hkeep
    end.
    + rewrite same_key_refl in Hkeep by (rewrite Hhash; discriminate).
      destruct (vget n v) as [e |]; [exists e; reflexivity |].
      exfalso. apply Hkeep; [discriminate | reflexivity].
    + rewrite Hhash. discriminate.
Qed.

(** A run of C3: the two-day cycle of the scenario, whose day 1 has
    Docetaxel. *)
Lemma day1_medications_covered_run :
  let run := validate_regimen_with_fdb catalog (regimen_of two_day_cycle)
               "id" "secret" empty_session in
  let groups := enriched_groups [("chemotherapy", JList [med "Docetaxel" "75mg/m2"])] in
  (forall k, In k (map fst (returned [] (snd run))) ->
     exists med, In med groups /\ Py.getitem med "name" = Ok k) /\
  (forall pre med post s0 v0 med_name code data,
     groups = pre ++ med :: post ->
     for_each (enrich catalog "id" "secret") [] pre empty_session = (s0, Ok v0) ->
     Py.getitem med "name" = Ok med_name ->
     search_result catalog "id" "secret" med_name (log s0) = HttpJson code data ->
     has_items data = Ok true ->
     exists e, vget med_name (returned [] (snd run)) = Some e).
Proof.
  intros run groups.
  apply (day1_medications_covered catalog (regimen_of two_day_cycle) two_day_cycle
           [("chemotherapy", JList [med "Docetaxel" "75mg/m2"])] "id" "secret"
           empty_session (fst run) (returned [] (snd run)));
    reflexivity.
Defined.

(** C3 fails: Cisplatin is scheduled on day 2 of the scenario's cycle and
    the service knows every drug, yet the result has an entry for Docetaxel
    only. *)
Lemma other_days_are_not_enriched :
  let run := validate_regimen_with_fdb catalog (regimen_of two_day_cycle)
               "id" "secret" empty_session in
  Py.getitem two_day_cycle "medications" =
    Ok (JDict [("day1", docetaxel_day); ("day2", cisplatin_day)]) /\
  exists v,
    snd run = Ok v /\
    map fst v = [JStr "Docetaxel"] /\
    vget (JStr "Cisplatin") v = None.
Proof.
  split; [reflexivity |].
  eexists. split; [vm_compute; reflexivity |]. split; reflexivity.
Qed.

(** *** Two services that differ on some requests *)









(** * Further properties of the code *)

(** ** Requests *)

Lemma lookup_store {V : Type} (k k' : string) (x : V) (d : list (string * V)) :
  lookup k (store k' x d) = if (k =? k')%string then Some x else lookup k d.
Proof.
  unfold lookup, store. induction d as [| [k0 x0] rest IH]; simpl.
  - reflexivity.
  - destruct (String.eqb_spec k' k0) as [-> | Hne]; simpl.
    + destruct (String.eqb_spec k k0); reflexivity.
    + rewrite IH. destruct (String.eqb_spec k k0) as [-> | _]; [| reflexivity].
      destruct (String.eqb_spec k0 k') as [E | _]; [| reflexivity].
      exfalso. apply Hne. symmetry. exact E.
Qed.

(** X1: a call of [make_fdb_request] leaves the stored regimens and
    validations alone and calls [requests.get] at most once: once, logged
    with the endpoint and the parameters, when every parameter can be
    quoted, and not at all, raising [UnicodeEncodeError], when one cannot.
    The parameters it builds carry [callSystemName = ChemoAnalyzer] and the
    timestamp read at the call as [callid], whatever the caller passed under
    these two names, and every other parameter of the caller unchanged. *)
Theorem request_carries_caller_and_timestamp (w : world) (x : Strict.wire)
  (endpoint client_id client_secret : string)
  (params : option (list (string * json))) (s : state) :
  exists p,
    lookup "callSystemName" p = Some (JStr "ChemoAnalyzer") /\
    lookup "callid" p = Some (JStr (now w (log s))) /\
    (forall k,
       k <> "callSystemName" -> k <> "callid" ->
       lookup k p = lookup k (match params with Some p => p | None => [] end)) /\
    match Strict.request_url w x endpoint p with
    | Some url =>
        fst (Strict.make_fdb_request w x endpoint client_id client_secret params s)
        = logged s [FdbGet (mkCall endpoint client_id client_secret p)]
    | None =>
        Strict.make_fdb_request w x endpoint client_id client_secret params s
        = (s, Raise UnicodeEncodeError)
    end.
Proof.
  exists (store "callid" (JStr (now w (log s)))
            (store "callSystemName" (JStr "ChemoAnalyzer")
               (match params with Some p => p | None => [] end))).
  split; [rewrite !lookup_store; reflexivity |].
  split; [rewrite !lookup_store; reflexivity |].
  split.
  - intros k H1 H2. rewrite !lookup_store.
    destruct (String.eqb_spec k "callid") as [E | _]; [contradiction |].
    destruct (String.eqb_spec k "callSystemName") as [E | _]; [contradiction |].
    reflexivity.
  - unfold Strict.make_fdb_request, bind, history, emit, lift.
    destruct (Strict.request_url w x endpoint _) as [url |]; reflexivity.
Qed.

(** ** Enrichment *)

Lemma validate_cases (w : world) (regimen_data : json) (client_id client_secret : string)
  (s : state) :
  validate_regimen_with_fdb w regimen_data client_id client_secret s = (s, Ok []) \/
  (exists e,
     validate_regimen_with_fdb w regimen_data client_id client_secret s = (s, Raise e)) \/
  (exists meds,
     day1_meds regimen_data = Ok meds /\
     validate_regimen_with_fdb w regimen_data client_id client_secret s =
     for_each (enrich w client_id client_secret) [] meds s).
Proof.
  unfold validate_regimen_with_fdb.
  destruct (Py.truthy regimen_data); simpl; [| left; reflexivity].
  unfold bind, lift.
  destruct (Py.contains_key "phase1" regimen_data) as [[|] | e]; simpl.
  - destruct (day1_meds regimen_data) as [meds | e].
    + right. right. exists meds. split; reflexivity.
    + right. left. exists e. reflexivity.
  - left. reflexivity.
  - right. left. exists e. reflexivity.
Qed.

(** X2: when the regimen has no day-1 schedule to read (a key on the way
    to [medications.day1] is missing, or a group is not a list), the
    enrichment sends no request and changes nothing: it returns the empty
    mapping when the regimen is empty or has no [phase1], and raises the
    error of the lookup otherwise. *)
Theorem no_request_without_day1_schedule (w : world) (regimen_data : json)
  (client_id client_secret : string) (s : state) (e : exn) :
  day1_meds regimen_data = Raise e ->
  (Py.truthy regimen_data = false \/ Py.contains_key "phase1" regimen_data = Ok false ->
   validate_regimen_with_fdb w regimen_data client_id client_secret s = (s, Ok [])) /\
  (Py.truthy regimen_data = true ->
   Py.contains_key "phase1" regimen_data = Ok true ->
   validate_regimen_with_fdb w regimen_data client_id client_secret s = (s, Raise e)) /\
  fst (validate_regimen_with_fdb w regimen_data client_id client_secret s) = s.
Proof.
  intros Hmeds. unfold validate_regimen_with_fdb, bind, lift, ret. repeat split.
  - intros [H | H].
    + rewrite H. reflexivity.
    + destruct (Py.truthy regimen_data); [| reflexivity]. simpl. rewrite H. reflexivity.
  - intros H1 H2. rewrite H1, H2. simpl. rewrite Hmeds. reflexivity.
  - destruct (Py.truthy regimen_data); [| reflexivity]. simpl.
    destruct (Py.contains_key "phase1" regimen_data) as [[|] | e']; simpl;
      try reflexivity.
    rewrite Hmeds. reflexivity.
Qed.

(** A run of X2: a regimen whose cycle has no medications. *)
Lemma no_request_without_day1_schedule_run :
  (Py.truthy bare_regimen = false \/ Py.contains_key "phase1" bare_regimen = Ok false ->
   validate_regimen_with_fdb catalog bare_regimen "id" "secret" empty_session
   = (empty_session, Ok [])) /\
  (Py.truthy bare_regimen = true ->
   Py.contains_key "phase1" bare_regimen = Ok true ->
   validate_regimen_with_fdb catalog bare_regimen "id" "secret" empty_session
   = (empty_session, Raise KeyError)) /\
  fst (validate_regimen_with_fdb catalog bare_regimen "id" "secret" empty_session)
  = empty_session.
Proof.
  apply (no_request_without_day1_schedule catalog bare_regimen "id" "secret"
           empty_session KeyError).
  reflexivity.
Defined.

Lemma logged_logged (s : state) (t u : list effect) :
  logged (logged s t) u = logged s (t ++ u).
Proof. unfold logged. simpl. rewrite app_assoc. reflexivity. Qed.

Lemma logged_nil (s : state) : logged s [] = s.
Proof. destruct s. unfold logged. simpl. rewrite app_nil_r. reflexivity. Qed.

Lemma fetched_requests (w : world) (client_id client_secret : string) (med_name : json)
  (s : state) :
  exists t,
    fst (fetched w client_id client_secret med_name s) = logged s t /\
    forallb is_fdb_get t = true /\
    (1 <= List.length t <= 3)%nat.
Proof.
  unfold fetched.
  destruct (search_result w client_id client_secret med_name (log s)) as [code data | | |].
  1: destruct (has_items data) as [[|] | e].
  1: destruct (resolve data) as [[item drug_id] | e].
  all: eexists; split; [reflexivity |]; split; [reflexivity | simpl; lia].
Qed.

Lemma enrich_requests (w : world) (client_id client_secret : string) (v : validation)
  (med : json) (s : state) :
  exists t,
    fst (enrich w client_id client_secret v med s) = logged s t /\
    forallb is_fdb_get t = true /\
    (List.length t <= 3)%nat /\
    (forall v1, snd (enrich w client_id client_secret v med s) = Ok v1 ->
                (1 <= List.length t)%nat).
Proof.
  rewrite enrich_eq. destruct (Py.getitem med "name") as [n | e].
  - destruct (fetched_requests w client_id client_secret n s) as [t [Ht [Hall Hlen]]].
    exists t. destruct (fetched w client_id client_secret n s) as [s1 [r | e]];
      simpl in Ht |- *; repeat split; try assumption; try lia.
  - exists []. rewrite logged_nil. repeat split; simpl; try lia. intros v1 H. discriminate H.
Qed.

Lemma for_each_enrich_requests (w : world) (client_id client_secret : string)
  (meds : list json) :
  forall (v : validation) (s : state),
    exists t,
      fst (for_each (enrich w client_id client_secret) v meds s) = logged s t /\
      forallb is_fdb_get t = true /\
      (List.length t <= 3 * List.length meds)%nat /\
      (forall v1, snd (for_each (enrich w client_id client_secret) v meds s) = Ok v1 ->
                  (List.length meds <= List.length t)%nat).
Proof.
  induction meds as [| m rest IH]; intros v s.
  - exists []. rewrite logged_nil. simpl. repeat split; lia.
  - cbn [for_each]. unfold bind.
    destruct (enrich_requests w client_id client_secret v m s) as [t [Ht [Hall [Hup Hlow]]]].
    destruct (enrich w client_id client_secret v m s) as [s1 [v1 | e]]; simpl in Ht; subst s1.
    + destruct (IH v1 (logged s t)) as [u [Hu [Hall' [Hup' Hlow']]]].
      exists (t ++ u). rewrite Hu, logged_logged. split; [reflexivity |].
      rewrite forallb_app, Hall, Hall'. split; [reflexivity |].
      rewrite length_app. cbn [List.length]. split; [lia |].
      intros v2 H. specialize (Hlow v1 eq_refl). specialize (Hlow' v2 H). lia.
    + exists t. split; [reflexivity |]. split; [exact Hall |].
      cbn [List.length]. split; [lia |]. intros v2 H. discriminate H.
Qed.

(** X3: one run of the enrichment on a regimen with [n] day-1
    medications only adds GETs to the log, at most [3 n] of them, and at
    least [n] when it returns. *)
Theorem at_most_three_requests_per_medication (w : world) (regimen_data : json)
  (client_id client_secret : string) (meds : list json) (s : state) :
  day1_meds regimen_data = Ok meds ->
  exists t,
    fst (validate_regimen_with_fdb w regimen_data client_id client_secret s) = logged s t /\
    forallb is_fdb_get t = true /\
    (List.length t <= 3 * List.length meds)%nat /\
    (forall v,
       snd (validate_regimen_with_fdb w regimen_data client_id client_secret s) = Ok v ->
       (List.length meds <= List.length t)%nat).
Proof.
  intros Hmeds. rewrite (validate_loop _ _ _ _ _ _ Hmeds).
  apply for_each_enrich_requests.
Qed.

(** A run of X3: the three medications of the mixed-case scenario. *)
Lemma at_most_three_requests_per_medication_run :
  exists t,
    fst (validate_regimen_with_fdb catalog (regimen_of mixed_case_cycle) "id" "secret"
           empty_session) = logged empty_session t /\
    forallb is_fdb_get t = true /\
    (List.length t <= 3 * 3)%nat /\
    (forall v,
       snd (validate_regimen_with_fdb catalog (regimen_of mixed_case_cycle) "id" "secret"
              empty_session) = Ok v ->
       (3 <= List.length t)%nat).
Proof.
  apply (at_most_three_requests_per_medication catalog (regimen_of mixed_case_cycle)
           "id" "secret"
           [med "Docetaxel" "75mg/m2"; med "docetaxel" "75mg/m2"; med "Docetaxel" "60mg/m2"]
           empty_session).
  reflexivity.
Defined.

Lemma resolve_identified (drug_data item drug_id : json) :
  resolve drug_data = Ok (item, drug_id) ->
  exists d, item = JDict d /\ lookup "PrescribableDrugID" d = Some drug_id.
Proof.
  unfold resolve. destruct (Py.getitem drug_data "Items") as [items | e]; [| discriminate].
  destruct (Py.first items) as [it | e]; [| discriminate].
  destruct it as [| | | | | d]; try discriminate. simpl.
  destruct (lookup "PrescribableDrugID" d) as [x |] eqn:E; [| discriminate].
  intros H. injection H as <- <-. exists d. split; [reflexivity | exact E].
Qed.

Lemma fetched_identified (w : world) (client_id client_secret : string) (med_name : json)
  (s s1 : state) (k : json) (e : entry) :
  fetched w client_id client_secret med_name s = (s1, Ok (Some (k, e))) ->
  identified e = true.
Proof.
  unfold fetched.
  destruct (search_result w client_id client_secret med_name (log s)) as [code data | | |];
    try discriminate.
  destruct (has_items data) as [[|] | e0]; try discriminate.
  destruct (resolve data) as [[item drug_id] | e0] eqn:E; try discriminate.
  intros H. injection H as _ _ <-.
  apply resolve_identified in E. destruct E as [d [-> Hd]].
  unfold identified, has_key, ahas. simpl. unfold lookup in Hd. rewrite Hd. reflexivity.
Qed.

Lemma aset_forall (Pk : json -> Prop) (Pe : entry -> Prop) (k : json) (e : entry)
  (v : validation) :
  Forall (fun ke => Pk (fst ke) /\ Pe (snd ke)) v -> Pk k -> Pe e ->
  Forall (fun ke => Pk (fst ke) /\ Pe (snd ke)) (aset same_key k e v).
Proof.
  intros Hv Hk He. induction Hv as [| [k0 e0] rest [Hk0 He0] Hrest IH]; simpl.
  - constructor; [split; assumption | constructor].
  - destruct (same_key k k0).
    + constructor; [split; assumption | exact Hrest].
    + constructor; [split; assumption | exact IH].
Qed.

Lemma for_each_enrich_identified (w : world) (client_id client_secret : string)
  (meds : list json) :
  forall (v v1 : validation) (s s1 : state),
    for_each (enrich w client_id client_secret) v meds s = (s1, Ok v1) ->
    Forall (fun ke => Py.hash (fst ke) <> None /\ identified (snd ke) = true) v ->
    Forall (fun ke => Py.hash (fst ke) <> None /\ identified (snd ke) = true) v1.
Proof.
  induction meds as [| m rest IH]; intros v v1 s s1; simpl.
  - intros H Hv. injection H as _ <-. exact Hv.
  - unfold bind.
    destruct (enrich w client_id client_secret v m s) as [s' [v' | e]] eqn:Estep;
      [| discriminate].
    intros Hrest Hv. apply (IH _ _ _ _ Hrest).
    apply enrich_ok in Estep. destruct Estep as [n [r [_ [Hfetch Hassign]]]].
    apply assigned_ok in Hassign.
    destruct Hassign as [[_ ->] | [k [e [-> [Hhash ->]]]]]; [exact Hv |].
    apply (aset_forall (fun k => Py.hash k <> None) (fun e => identified e = true));
      [exact Hv | exact Hhash | exact (fetched_identified _ _ _ _ _ _ _ _ Hfetch)].
Qed.

(** X4: every entry of a mapping the enrichment returns sits under a
    hashable name and has as [drug_info] an object with a
    [PrescribableDrugID]. *)
Theorem entries_are_identified (w : world) (regimen_data : json)
  (client_id client_secret : string) (s s1 : state) (v : validation) :
  validate_regimen_with_fdb w regimen_data client_id client_secret s = (s1, Ok v) ->
  Forall (fun ke => Py.hash (fst ke) <> None /\ identified (snd ke) = true) v.
Proof.
  intros Hrun.
  destruct (validate_cases w regimen_data client_id client_secret s)
    as [H | [[e H] | [meds [_ H]]]]; rewrite H in Hrun.
  - injection Hrun as _ <-. constructor.
  - discriminate Hrun.
  - apply (for_each_enrich_identified _ _ _ _ _ _ _ _ Hrun). constructor.
Qed.

(** A run of X4: the two-drug scenario. *)
Lemma entries_are_identified_run :
  let run := validate_regimen_with_fdb catalog (regimen_of two_drug_cycle)
               "id" "secret" empty_session in
  Forall (fun ke => Py.hash (fst ke) <> None /\ identified (snd ke) = true)
    (returned [] (snd run)).
Proof.
  intros run.
  apply (entries_are_identified catalog (regimen_of two_drug_cycle) "id" "secret"
           empty_session (fst run) (returned [] (snd run))).
  reflexivity.
Defined.

Lemma for_each_enrich_keeps (w : world) (client_id client_secret : string) (k : json)
  (meds : list json) :
  Forall (fun m => forall n, Py.getitem m "name" = Ok n -> same_key n k = false) meds ->
  forall (v v1 : validation) (s s1 : state),
    for_each (enrich w client_id client_secret) v meds s = (s1, Ok v1) ->
    vget k v1 = vget k v.
Proof.
  induction 1 as [| m rest Hm _ IH]; intros v v1 s s1; simpl.
  - intros H. injection H as _ <-. reflexivity.
  - unfold bind.
    destruct (enrich w client_id client_secret v m s) as [s' [v' | e]] eqn:Estep;
      [| discriminate].
    intros Hrest. rewrite (IH _ _ _ _ Hrest).
    apply enrich_ok in Estep. destruct Estep as [n [r [Hname [Hfetch Hassign]]]].
    apply assigned_ok in Hassign.
    destruct Hassign as [[_ ->] | [k' [e [-> [Hhash ->]]]]]; [reflexivity |].
    apply fetched_run in Hfetch. destruct Hfetch as [_ [_ Hkey]].
    rewrite (Hkey k' e eq_refl) in *.
    rewrite vget_aset by exact Hhash. rewrite same_key_sym, (Hm n Hname). reflexivity.
Qed.

(** X5: when the search for a day-1 medication resolves to [item] and no
    later medication of the lists has the same name, a run that returns has
    under that name the entry made of [item], of the data of the
    interactions answer and of the data of the dosing answer, each replaced
    by [{}] when its request failed. *)
Theorem entry_of_last_occurrence (w : world) (regimen_data : json)
  (client_id client_secret : string) (pre post : list json) (med med_name : json)
  (s s1 s2 : state) (v1 v : validation) (code : Z) (drug_data item drug_id : json) :
  day1_meds regimen_data = Ok (pre ++ med :: post) ->
  for_each (enrich w client_id client_secret) [] pre s = (s1, Ok v1) ->
  Py.getitem med "name" = Ok med_name ->
  search_result w client_id client_secret med_name (log s1) = HttpJson code drug_data ->
  has_items drug_data = Ok true ->
  resolve drug_data = Ok (item, drug_id) ->
  Forall (fun m => forall n, Py.getitem m "name" = Ok n -> same_key n med_name = false)
    post ->
  validate_regimen_with_fdb w regimen_data client_id client_secret s = (s2, Ok v) ->
  let h1 := log s1 ++ [FdbGet (search_call w client_id client_secret med_name (log s1))] in
  let h2 := h1 ++ [FdbGet (plain_call w client_id client_secret
                             (interactions_endpoint w drug_id) h1)] in
  vget med_name v =
  Some (mkEntry item
          (data_of (plain_result w client_id client_secret
                      (interactions_endpoint w drug_id) h1))
          (data_of (plain_result w client_id client_secret
                      (dose_records_endpoint w drug_id) h2))).
Proof.
  intros Hmeds Hpre Hname Hsearch Hitems Hresolve Hpost Hrun h1 h2.
  rewrite (validate_loop _ _ _ _ _ _ Hmeds), for_each_app, Hpre in Hrun.
  simpl in Hrun. unfold bind in Hrun. rewrite enrich_eq, Hname in Hrun.
  unfold fetched in Hrun. rewrite Hsearch, Hitems, Hresolve in Hrun.
  cbn [assigned] in Hrun. unfold vset in Hrun.
  destruct (Py.hash med_name) as [x |] eqn:Hhash; [| discriminate Hrun].
  rewrite (for_each_enrich_keeps _ _ _ _ _ Hpost _ _ _ _ Hrun).
  rewrite vget_aset by (rewrite Hhash; discriminate).
  rewrite same_key_refl by (rewrite Hhash; discriminate). reflexivity.
Qed.

(** A run of X5: Docetaxel, before Cisplatin, with a service whose answers
    to the two requests after the search time out. *)
Lemma entry_of_last_occurrence_run :
  let w := with_http_get catalog (flaky 0 (HttpJson 200 found_drug)) in
  let run := validate_regimen_with_fdb w (regimen_of two_drug_cycle)
               "id" "secret" empty_session in
  vget (JStr "Docetaxel") (returned [] (snd run)) =
  Some (mkEntry (JDict [("PrescribableDrugID", JInt 7)]) (JDict []) (JDict [])).
Proof.
  intros w run.
  apply (entry_of_last_occurrence w (regimen_of two_drug_cycle) "id" "secret"
           [] [med "Cisplatin" "50mg/m2"] (med "Docetaxel" "75mg/m2") (JStr "Docetaxel")
           empty_session empty_session (fst run) [] (returned [] (snd run))
           200 found_drug (JDict [("PrescribableDrugID", JInt 7)]) (JInt 7));
    try reflexivity.
  repeat constructor. intros n H. injection H as <-. reflexivity.
Defined.

(** X6: when the first item of a search answer cannot be resolved (the
    items are not a list, or the first has no [PrescribableDrugID]), the
    enrichment raises right after that search: no interactions or dosing
    request is sent, the medications after it are not searched, and the
    entries of the medications before it are not returned. *)
Theorem unresolvable_item_aborts (w : world) (regimen_data : json)
  (client_id client_secret : string) (pre post : list json) (med med_name : json)
  (s s1 : state) (v1 : validation) (code : Z) (drug_data : json) (e : exn) :
  day1_meds regimen_data = Ok (pre ++ med :: post) ->
  for_each (enrich w client_id client_secret) [] pre s = (s1, Ok v1) ->
  Py.getitem med "name" = Ok med_name ->
  search_result w client_id client_secret med_name (log s1) = HttpJson code drug_data ->
  has_items drug_data = Ok true ->
  resolve drug_data = Raise e ->
  validate_regimen_with_fdb w regimen_data client_id client_secret s =
  (logged s1 [FdbGet (search_call w client_id client_secret med_name (log s1))], Raise e).
Proof.
  intros Hmeds Hpre Hname Hsearch Hitems Hresolve.
  rewrite (validate_loop _ _ _ _ _ _ Hmeds), for_each_app, Hpre.
  simpl. unfold bind. rewrite enrich_eq, Hname. unfold fetched.
  rewrite Hsearch, Hitems, Hresolve. reflexivity.
Qed.

(** A run of X6: the service answers with an item that has no identifier. *)
Lemma unresolvable_item_aborts_run :
  let w := scenario [] "" (always (HttpJson 200 unnamed_drug)) in
  validate_regimen_with_fdb w (regimen_of two_drug_cycle) "id" "secret" empty_session =
  (logged empty_session [FdbGet (search_call w "id" "secret" (JStr "Docetaxel") [])],
   Raise KeyError).
Proof.
  intros w.
  apply (unresolvable_item_aborts w (regimen_of two_drug_cycle) "id" "secret"
           [] [med "Cisplatin" "50mg/m2"] (med "Docetaxel" "75mg/m2") (JStr "Docetaxel")
           empty_session empty_session [] 200 unnamed_drug KeyError);
    reflexivity.
Defined.

(** ** Text extraction and the upload loop *)





(** X8: a new document whose PDF cannot be read, or has no page, is passed
    over: the read is logged, at most errors are shown, no completion call is
    made, nothing is stored, and the loop body returns normally. *)
Theorem unreadable_document_is_passed_over (w : world) (cfg : sidebar)
  (file : uploaded_file) (s : state) :
  has_key (name file) (json_outputs s) = false ->
  (exists message, pdf_pages w (log s) file = inl message) \/
  pdf_pages w (log s) file = inr [] ->
  exists t,
    process_upload w cfg file s = (logged s (PdfRead (name file) :: t), Ok tt) /\
    forallb is_st_error t = true.
Proof.
  intros Hnew Hpdf. unfold process_upload. rewrite Hnew.
  unfold process_pdf, bind, history, emit, lift, ret. simpl.
  destruct Hpdf as [[message H] | H]; rewrite H; simpl.
  - eexists. unfold logged. rewrite <- app_assoc. split; reflexivity.
  - exists []. split; reflexivity.
Qed.

(** A run of X8: a reader that fails on every file. *)
Lemma unreadable_document_is_passed_over_run :
  exists t,
    process_upload unreadable credentials template empty_session
    = (logged empty_session (PdfRead "a.pdf" :: t), Ok tt) /\
    forallb is_st_error t = true.
Proof.
  apply (unreadable_document_is_passed_over unreadable credentials template empty_session
           eq_refl).
  left. exists "EOF marker not found". reflexivity.
Defined.

(** What [process_upload] does when the completion call raises. *)
Lemma process_upload_completion_error (w : world) (cfg : sidebar) (file : uploaded_file)
  (s : state) (pages : list string) (e : exn) :
  has_key (name file) (json_outputs s) = false ->
  pdf_pages w (log s) file = inr pages ->
  nonempty (page_text pages) = true ->
  messages_create w (log s ++ [PdfRead (name file)]) (anthropic_api_key cfg)
    (extraction_prompt (page_text pages)) = Raise e ->
  process_upload w cfg file s =
  (logged s [PdfRead (name file);
             Completion (anthropic_api_key cfg) (extraction_prompt (page_text pages))],
   Raise e).
Proof.
  intros Hnew Hpdf Htext Hreply. unfold process_upload. rewrite Hnew.
  unfold bind at 1. rewrite (process_pdf_pages _ _ _ _ Hpdf). rewrite Htext.
  unfold bind, history, emit, lift. simpl. rewrite Hreply.
  unfold logged. rewrite <- app_assoc. reflexivity.
Qed.

(** X9: when the completion call for a document raises, the exception
    leaves the upload loop: nothing is stored for the document and the
    documents after it in the list are not processed in this run. *)
Theorem completion_error_stops_the_batch (w : world) (cfg : sidebar)
  (pre post : list uploaded_file) (file : uploaded_file) (s s1 : state)
  (pages : list string) (e : exn) :
  process_uploads w cfg pre s = (s1, Ok tt) ->
  has_key (name file) (json_outputs s1) = false ->
  pdf_pages w (log s1) file = inr pages ->
  nonempty (page_text pages) = true ->
  messages_create w (log s1 ++ [PdfRead (name file)]) (anthropic_api_key cfg)
    (extraction_prompt (page_text pages)) = Raise e ->
  process_uploads w cfg (pre ++ file :: post) s =
  (logged s1 [PdfRead (name file);
              Completion (anthropic_api_key cfg) (extraction_prompt (page_text pages))],
   Raise e).
Proof.
  intros Hpre Hnew Hpdf Htext Hreply. unfold process_uploads in *.
  rewrite for_each_app, Hpre. simpl. unfold bind.
  rewrite (process_upload_completion_error _ _ _ _ _ _ Hnew Hpdf Htext Hreply).
  reflexivity.
Qed.

(** A run of X9: the completion service rejects the key; a second
    document waits behind the first. *)
Lemma completion_error_stops_the_batch_run :
  process_uploads rejected_key credentials [template; other_template] empty_session =
  (logged empty_session
     [PdfRead "a.pdf";
      Completion "key" (extraction_prompt (page_text [getvalue template]))],
   Raise (ApiError "invalid x-api-key")).
Proof.
  apply (completion_error_stops_the_batch rejected_key credentials [] [other_template]
           template empty_session empty_session [getvalue template]
           (ApiError "invalid x-api-key"));
    reflexivity.
Defined.

(** X10: when the enrichment of a freshly parsed regimen raises, the
    exception leaves the loop body with the regimen stored and no validation
    results for the document; every later run skips the document, so it stays
    without validation results. *)
Theorem failed_enrichment_leaves_regimen_unvalidated (w : world) (cfg : sidebar)
  (file : uploaded_file) (s s2 : state) (pages : list string) (text : string)
  (extracted_data : json) (e : exn) :
  has_key (name file) (json_outputs s) = false ->
  pdf_pages w (log s) file = inr pages ->
  nonempty (page_text pages) = true ->
  messages_create w (log s ++ [PdfRead (name file)]) (anthropic_api_key cfg)
    (extraction_prompt (page_text pages)) = Ok text ->
  json_loads w text = Some extracted_data ->
  nonempty (fdb_client_id cfg) && nonempty (fdb_client_secret cfg) = true ->
  validate_regimen_with_fdb w extracted_data (fdb_client_id cfg) (fdb_client_secret cfg)
    (mkState (store (name file) extracted_data (json_outputs s)) (fdb_validation s)
       (log s ++ [PdfRead (name file);
                  Completion (anthropic_api_key cfg) (extraction_prompt (page_text pages))]))
  = (s2, Raise e) ->
  process_upload w cfg file s = (s2, Raise e) /\
  json_outputs s2 = store (name file) extracted_data (json_outputs s) /\
  fdb_validation s2 = fdb_validation s /\
  forall w' cfg', process_upload w' cfg' file s2 = (s2, Ok tt).
Proof.
  intros Hnew Hpdf Htext Hreply Hload Hcred Hrun.
  rewrite (process_upload_parsed _ _ _ _ _ _ Hnew Hpdf Htext Hreply), Hload, Hcred.
  unfold bind at 1. unfold set_json_output at 1. cbv beta iota.
  cbn [json_outputs fdb_validation log]. unfold bind. rewrite Hrun.
  match type of Hrun with
  | validate_regimen_with_fdb ?a ?b ?c ?d ?st = _ =>
      destruct (appends_validate a b c d st) as [t Ht]
  end.
  rewrite Hrun in Ht. simpl in Ht. subst s2. simpl.
  repeat split. intros w' cfg'. apply process_upload_stored. simpl.
  unfold has_key, ahas. fold (@lookup json). rewrite lookup_store, String.eqb_refl.
  reflexivity.
Qed.

(** A run of X10: the reply parses to a regimen whose cycle has no
    medications. *)
Lemma failed_enrichment_leaves_regimen_unvalidated_run :
  let w := scenario [("{}", bare_regimen)] "{}" (always (HttpJson 200 found_drug)) in
  let s2 := mkState [("a.pdf", bare_regimen)] []
              [PdfRead "a.pdf";
               Completion "key" (extraction_prompt (page_text [getvalue template]))] in
  process_upload w credentials template empty_session = (s2, Raise KeyError) /\
  json_outputs s2 = store "a.pdf" bare_regimen [] /\
  fdb_validation s2 = [] /\
  forall w' cfg', process_upload w' cfg' template s2 = (s2, Ok tt).
Proof.
  intros w s2.
  apply (failed_enrichment_leaves_regimen_unvalidated w credentials template empty_session
           s2 [getvalue template] "{}" bare_regimen KeyError);
    reflexivity.
Defined.

(** X11: for a new document whose text was extracted and whose reply
    parses, with both credentials given and an enrichment that returns, the
    loop body ends normally with the parsed regimen and the returned mapping
    stored under the file name, and with the log the enrichment left. *)
Theorem parsed_document_is_stored_and_validated (w : world) (cfg : sidebar)
  (file : uploaded_file) (s s2 : state) (pages : list string) (text : string)
  (extracted_data : json) (v : validation) :
  has_key (name file) (json_outputs s) = false ->
  pdf_pages w (log s) file = inr pages ->
  nonempty (page_text pages) = true ->
  messages_create w (log s ++ [PdfRead (name file)]) (anthropic_api_key cfg)
    (extraction_prompt (page_text pages)) = Ok text ->
  json_loads w text = Some extracted_data ->
  nonempty (fdb_client_id cfg) && nonempty (fdb_client_secret cfg) = true ->
  validate_regimen_with_fdb w extracted_data (fdb_client_id cfg) (fdb_client_secret cfg)
    (mkState (store (name file) extracted_data (json_outputs s)) (fdb_validation s)
       (log s ++ [PdfRead (name file);
                  Completion (anthropic_api_key cfg) (extraction_prompt (page_text pages))]))
  = (s2, Ok v) ->
  process_upload w cfg file s =
  (mkState (store (name file) extracted_data (json_outputs s))
     (store (name file) v (fdb_validation s)) (log s2),
   Ok tt).
Proof.
  intros Hnew Hpdf Htext Hreply Hload Hcred Hrun.
  rewrite (process_upload_parsed _ _ _ _ _ _ Hnew Hpdf Htext Hreply), Hload, Hcred.
  unfold bind at 1. unfold set_json_output at 1. cbv beta iota.
  cbn [json_outputs fdb_validation log]. unfold bind. rewrite Hrun.
  match type of Hrun with
  | validate_regimen_with_fdb ?a ?b ?c ?d ?st = _ =>
      destruct (appends_validate a b c d st) as [t Ht]
  end.
  rewrite Hrun in Ht. simpl in Ht. subst s2. reflexivity.
Qed.

(** A run of X11: the Docetaxel regimen with a service that knows it. *)
Lemma parsed_document_is_stored_and_validated_run :
  let w := scenario [("{}", regimen_of cycle_without_duration)] "{}"
             (always (HttpJson 200 found_drug)) in
  let run := validate_regimen_with_fdb w (regimen_of cycle_without_duration) "id" "secret"
               (mkState [("a.pdf", regimen_of cycle_without_duration)] []
                  [PdfRead "a.pdf";
                   Completion "key" (extraction_prompt (page_text [getvalue template]))]) in
  process_upload w credentials template empty_session =
  (mkState [("a.pdf", regimen_of cycle_without_duration)]
     [("a.pdf", returned [] (snd run))] (log (fst run)),
   Ok tt).
Proof.
  intros w run.
  apply (parsed_document_is_stored_and_validated w credentials template empty_session
           (fst run) [getvalue template] "{}" (regimen_of cycle_without_duration)
           (returned [] (snd run)));
    reflexivity.
Defined.

Lemma has_key_store {V : Type} (k k' : string) (x : V) (d : list (string * V)) :
  has_key k (store k' x d) = ((k =? k')%string || has_key k d)%bool.
Proof.
  unfold has_key, ahas. fold (@lookup V). rewrite lookup_store.
  destruct (k =? k')%string; reflexivity.
Qed.

(** What one pass of the loop body can do to the session: nothing but
    logging, or store a regimen for a file that had none, with or without its
    validation results. *)
Lemma process_upload_effect (w : world) (cfg : sidebar) (file : uploaded_file) (s : state) :
  exists t,
    fst (process_upload w cfg file s) = logged s t \/
    (has_key (name file) (json_outputs s) = false /\
     exists extracted_data,
       fst (process_upload w cfg file s)
       = mkState (store (name file) extracted_data (json_outputs s))
           (fdb_validation s) (log s ++ t) \/
       exists v,
         fst (process_upload w cfg file s)
         = mkState (store (name file) extracted_data (json_outputs s))
             (store (name file) v (fdb_validation s)) (log s ++ t)).
Proof.
  unfold process_upload. destruct (has_key (name file) (json_outputs s)) eqn:Hnew.
  - exists []. left. rewrite logged_nil. reflexivity.
  - unfold process_pdf, bind, history, emit, lift, ret, set_json_output,
      set_fdb_validation. simpl.
    destruct (pdf_pages w (log s) file) as [msg | pages]; simpl.
    + eexists. left. unfold logged. rewrite <- app_assoc. reflexivity.
    + destruct (nonempty (page_text pages)); simpl.
      * destruct (messages_create w _ _ _) as [text | e]; simpl.
        -- destruct (json_loads w text) as [data |]; simpl.
           ++ destruct (nonempty (fdb_client_id cfg) && nonempty (fdb_client_secret cfg)).
              ** match goal with
                 | |- context [validate_regimen_with_fdb ?a ?b ?c ?d ?st] =>
                     destruct (appends_validate a b c d st) as [t Ht];
                     destruct (validate_regimen_with_fdb a b c d st) as [s1 [v | e]]
                 end; simpl in Ht; subst s1; simpl; rewrite <- !app_assoc.
                 --- eexists. right. split; [reflexivity |]. exists data. right.
                     exists v. reflexivity.
                 --- eexists. right. split; [reflexivity |]. exists data. left.
                     reflexivity.
              ** simpl. rewrite <- app_assoc. eexists. right. split; [reflexivity |].
                 exists data. left. reflexivity.
           ++ rewrite <- !app_assoc. eexists. left. reflexivity.
        -- rewrite <- app_assoc. eexists. left. reflexivity.
      * eexists. left. reflexivity.
Qed.

Lemma for_each_invariant {S A B : Type} (P : S -> Prop) (body : B -> A -> M S B)
  (items : list A) :
  (forall acc x s, P s -> P (fst (body acc x s))) ->
  forall acc s, P s -> P (fst (for_each body acc items s)).
Proof.
  intros Hbody. induction items as [| x rest IH]; intros acc s Hs; simpl.
  - exact Hs.
  - unfold bind. pose proof (Hbody acc x s Hs) as Hstep.
    destruct (body acc x s) as [s' [acc' | e]]; simpl in Hstep.
    + apply IH. exact Hstep.
    + exact Hstep.
Qed.

(** X12: the upload loop never replaces or removes a stored regimen:
    whatever the documents, the services and the outcome of the run, a
    regimen stored under a file name before the run is stored under it
    after. *)
Theorem stored_regimen_is_never_replaced (w : world) (cfg : sidebar)
  (uploaded_files : list uploaded_file) (s : state) (file_name : string)
  (regimen_data : json) :
  lookup file_name (json_outputs s) = Some regimen_data ->
  lookup file_name (json_outputs (fst (process_uploads w cfg uploaded_files s)))
  = Some regimen_data.
Proof.
  intros H. unfold process_uploads.
  apply (for_each_invariant
           (fun st => lookup file_name (json_outputs st) = Some regimen_data));
    [| exact H].
  intros [] file st Hst.
  destruct (process_upload_effect w cfg file st) as [t [E | [Hnew [data [E | [v E]]]]]];
    rewrite E; simpl; try exact Hst.
  all: rewrite lookup_store.
  all: destruct (String.eqb_spec file_name (name file)) as [-> | _]; [| exact Hst].
  all: unfold has_key, ahas in Hnew; fold (@lookup json) in Hnew; rewrite Hst in Hnew.
  all: discriminate Hnew.
Qed.

(** A run of X12: the template stored by a first run survives a second run
    in which the completion service answers differently. *)
Lemma stored_regimen_is_never_replaced_run :
  let first := scenario [("{}", bare_regimen)] "{}" (always (HttpJson 200 found_drug)) in
  let second := scenario [("[]", JList [])] "[]" (always (HttpJson 200 found_drug)) in
  let s := fst (process_uploads first no_credentials [template] empty_session) in
  lookup "a.pdf"
    (json_outputs (fst (process_uploads second no_credentials [template; other_template] s)))
  = Some bare_regimen.
Proof.
  intros first second s.
  apply (stored_regimen_is_never_replaced second no_credentials [template; other_template]
           s "a.pdf" bare_regimen).
  reflexivity.
Defined.

(** X13: the upload loop keeps the invariant that every document with
    stored validation results has a stored regimen; it holds of the empty
    session, hence of every session the loop produces from it. *)
Theorem validated_documents_have_a_regimen (w : world) (cfg : sidebar)
  (uploaded_files : list uploaded_file) (s : state) :
  validated_are_stored s ->
  validated_are_stored (fst (process_uploads w cfg uploaded_files s)).
Proof.
  intros H. unfold process_uploads.
  apply (for_each_invariant validated_are_stored); [| exact H].
  intros [] file st Hst.
  destruct (process_upload_effect w cfg file st) as [t [E | [Hnew [data [E | [v E]]]]]];
    rewrite E; unfold validated_are_stored in *; cbn [logged json_outputs fdb_validation].
  - exact Hst.
  - intros n Hn. rewrite has_key_store. rewrite (Hst n Hn). apply orb_true_r.
  - intros n Hn. rewrite has_key_store in Hn. rewrite has_key_store.
    destruct (n =? name file)%string; [reflexivity |]. simpl in Hn |- *. exact (Hst n Hn).
Qed.

(** A run of X13: two documents processed from the empty session. *)
Lemma validated_documents_have_a_regimen_run :
  let w := scenario [("{}", regimen_of cycle_without_duration)] "{}"
             (always (HttpJson 200 found_drug)) in
  validated_are_stored
    (fst (process_uploads w credentials [template; other_template] empty_session)).
Proof.
  intros w.
  apply (validated_documents_have_a_regimen w credentials [template; other_template]
           empty_session).
  intros n H. discriminate H.
Defined.

(** ** The treatment calendar *)

Lemma range_empty (lo hi : Z) : hi <= lo -> Py.range lo hi = [].
Proof. intros H. unfold Py.range. replace (Z.to_nat (hi - lo)) with O by lia. reflexivity. Qed.

(** X14: the calendar shows nothing and raises nothing when the regimen
    has no [phase1], and when the cycle length is zero or negative; in the
    second case the medications are not even read. *)
Theorem calendar_without_days_is_empty (w : world) (regimen_data : json)
  (page : list container) :
  Py.contains_key "phase1" regimen_data = Ok false \/
  (exists cycle_data n,
     Py.contains_key "phase1" regimen_data = Ok true /\
     cycle_of regimen_data = Ok cycle_data /\
     cycle_length_of w cycle_data = Ok n /\
     n <= 0) ->
  calendar w regimen_data page = (page, Ok tt).
Proof.
  unfold calendar, bind, lift, ret.
  intros [H | [cycle_data [n [Hphase [Hcycle [Hlen Hn]]]]]].
  - rewrite H. reflexivity.
  - rewrite Hphase, Hcycle, Hlen. rewrite range_empty by lia. reflexivity.
Qed.

(** A run of X14: a cycle of zero days that has no medications at all. *)
Lemma calendar_without_days_is_empty_run :
  calendar offline (regimen_of zero_day_cycle) [] = ([], Ok tt).
Proof.
  apply (calendar_without_days_is_empty offline (regimen_of zero_day_cycle) []).
  right. exists zero_day_cycle, 0. repeat split. lia.
Defined.

Lemma extends_ret {X A : Type} (a : A) : extends (@ret (list X) A a).
Proof. intros out. exists []. simpl. rewrite app_nil_r. reflexivity. Qed.

Lemma extends_lift {X A : Type} (r : outcome A) : extends (@lift (list X) A r).
Proof. intros out. exists []. simpl. rewrite app_nil_r. reflexivity. Qed.

Lemma extends_bind {X A B : Type} (m : M (list X) A) (f : A -> M (list X) B) :
  extends m -> (forall a, extends (f a)) -> extends (bind m f).
Proof.
  intros Hm Hf out. unfold bind. destruct (Hm out) as [t Ht].
  destruct (m out) as [out1 [a | e]]; simpl in Ht; subst out1.
  - destruct (Hf a (out ++ t)) as [u Hu]. exists (t ++ u).
    rewrite Hu, app_assoc. reflexivity.
  - exists t. reflexivity.
Qed.

Lemma extends_for_each {X A B : Type} (body : B -> A -> M (list X) B) (items : list A) :
  (forall acc x, extends (body acc x)) -> forall acc, extends (for_each body acc items).
Proof.
  intros Hbody. induction items as [| x rest IH]; intros acc; simpl.
  - apply extends_ret.
  - apply extends_bind; [apply Hbody | exact IH].
Qed.

Lemma extends_st_markdown (m : markdown) : extends (st_markdown m).
Proof. intros out. exists [m]. reflexivity. Qed.

Lemma extends_show_med_type (medications : json) (acc : unit) (med_type : string) :
  extends (show_med_type medications acc med_type).
Proof.
  unfold show_med_type. apply extends_bind; [apply extends_lift |]. intros [|].
  - apply extends_bind; [apply extends_lift |]. intros group.
    apply extends_bind; [apply extends_lift |]. intros meds.
    apply extends_for_each. intros [] med. unfold show_med.
    apply extends_bind; [apply extends_lift |]. intros n.
    apply extends_bind; [apply extends_lift |]. intros d. apply extends_st_markdown.
  - apply extends_ret.
Qed.

Lemma show_day_heading (cycle_data : json) (day : Z) :
  exists t, fst (show_day cycle_data day []) = MdDay day :: t.
Proof.
  unfold show_day. unfold bind at 1. unfold st_markdown at 1. cbv beta iota. simpl app.
  assert (H : extends
                (if day =? 1
                 then medications <- lift (day1_of cycle_data) ;;
                      for_each (show_med_type medications) tt
                        ["chemotherapy"; "targetedTherapy"]%string
                 else ret tt)).
  { destruct (day =? 1).
    - apply extends_bind; [apply extends_lift |]. intros medications.
      apply extends_for_each. intros acc x. apply extends_show_med_type.
    - apply extends_ret. }
  destruct (H [MdDay day]) as [t Ht]. exists t. exact Ht.
Qed.

Lemma show_days_columns (cycle_data : json) (days : list Z) :
  forall page,
    Forall (fun c => 0 <= column c < 7 /\
                     exists day, day_of c = Some day /\ column c = day mod 7) page ->
    Forall (fun c => 0 <= column c < 7 /\
                     exists day, day_of c = Some day /\ column c = day mod 7)
      (fst (show_days cycle_data days page)).
Proof.
  induction days as [| day rest IH]; intros page Hpage; simpl.
  - exact Hpage.
  - destruct (show_day_heading cycle_data day) as [t Ht].
    destruct (show_day cycle_data day []) as [written r]. simpl in Ht. subst written.
    assert (Hnew : Forall (fun c => 0 <= column c < 7 /\
                                    exists d, day_of c = Some d /\ column c = d mod 7)
                     (page ++ [mkContainer (day mod 7) (MdDay day :: t)])).
    { apply Forall_app. split; [exact Hpage |]. constructor; [| constructor].
      simpl. split; [apply Z.mod_pos_bound; lia |]. exists day. split; reflexivity. }
    destruct r as [[] | e]; [apply IH; exact Hnew | exact Hnew].
Qed.

(** X15: whatever the regimen and however the rendering ends, every
    container of the calendar starts with the heading of a day and sits in
    column [day % 7], an index of one of the seven columns. *)
Theorem calendar_columns_in_range (w : world) (regimen_data : json) :
  Forall (fun c => 0 <= column c < 7 /\
                   exists day, day_of c = Some day /\ column c = day mod 7)
    (fst (calendar w regimen_data [])).
Proof.
  unfold calendar, bind, lift, ret.
  destruct (Py.contains_key "phase1" regimen_data) as [[|] | e]; try constructor.
  destruct (cycle_of regimen_data) as [cycle_data | e]; [| constructor].
  destruct (cycle_length_of w cycle_data) as [n | e]; [| constructor].
  apply show_days_columns. constructor.
Qed.

(** X16: when a cycle of at least one day has no day-1 schedule (no
    [medications], or no [day1] in it), the calendar raises the error of that
    lookup right under the heading of day 1: no other day is shown. *)
Theorem calendar_stops_without_day1 (w : world) (regimen_data cycle_data : json)
  (n : Z) (e : exn) :
  Py.contains_key "phase1" regimen_data = Ok true ->
  cycle_of regimen_data = Ok cycle_data ->
  cycle_length_of w cycle_data = Ok n ->
  0 < n ->
  day1_of cycle_data = Raise e ->
  calendar w regimen_data [] = ([mkContainer 1 [MdDay 1]], Raise e).
Proof.
  intros Hphase Hcycle Hlen Hpos Hday.
  unfold calendar, bind, lift. rewrite Hphase, Hcycle, Hlen.
  rewrite range_cons by lia. simpl show_days.
  unfold show_day, bind, st_markdown, lift. simpl. rewrite Hday. reflexivity.
Qed.

(** A run of X16: the two-day cycle that has a schedule for day 2 only. *)
Lemma calendar_stops_without_day1_run :
  calendar offline (regimen_of cycle_without_day1) [] =
  ([mkContainer 1 [MdDay 1]], Raise KeyError).
Proof.
  apply (calendar_stops_without_day1 offline (regimen_of cycle_without_day1)
           cycle_without_day1 2 KeyError);
    solve [reflexivity | lia].
Defined.

Lemma show_meds_stop (pre post : list json) (d : list (string * json)) :
  forallb med_ok pre = true ->
  has_key "name" d = true ->
  has_key "dose" d = false ->
  forall out,
    for_each show_med tt (pre ++ JDict d :: post) out = (out ++ map med_line pre, Raise KeyError).
Proof.
  intros Hpre Hname Hdose out. rewrite for_each_app, (show_meds_ok _ Hpre). simpl.
  unfold bind at 1. unfold show_med, bind, lift. simpl.
  unfold has_key, ahas in Hname, Hdose. fold (@lookup json) in Hname, Hdose.
  destruct (lookup "name" d); [| discriminate Hname].
  destruct (lookup "dose" d); [discriminate Hdose | reflexivity].
Qed.

(** X17: a chemotherapy medication of day 1 that has a [name] but no
    [dose] stops the calendar with [KeyError]: the medications listed before
    it stay on the page under the heading of day 1, and nothing else is
    shown, neither the medications after it nor the other days. *)
Theorem calendar_stops_at_missing_dose (w : world) (regimen_data cycle_data : json)
  (medications d : list (string * json)) (pre post : list json) (n : Z) :
  Py.contains_key "phase1" regimen_data = Ok true ->
  cycle_of regimen_data = Ok cycle_data ->
  cycle_length_of w cycle_data = Ok n ->
  0 < n ->
  day1_of cycle_data = Ok (JDict medications) ->
  lookup "chemotherapy" medications = Some (JList (pre ++ JDict d :: post)) ->
  forallb med_ok pre = true ->
  has_key "name" d = true ->
  has_key "dose" d = false ->
  calendar w regimen_data [] =
  ([mkContainer 1 (MdDay 1 :: map med_line pre)], Raise KeyError).
Proof.
  intros Hphase Hcycle Hlen Hpos Hday Hchemo Hpre Hname Hdose.
  assert (Htype : show_med_type (JDict medications) tt "chemotherapy" [MdDay 1]
                  = (MdDay 1 :: map med_line pre, Raise KeyError)).
  { unfold show_med_type, bind, lift. cbn [Py.contains_key Py.getitem Py.iter].
    unfold has_key, ahas. unfold lookup in Hchemo |- *. rewrite Hchemo.
    apply (show_meds_stop _ _ _ Hpre Hname Hdose). }
  unfold calendar, bind, lift. rewrite Hphase, Hcycle, Hlen.
  rewrite range_cons by lia. simpl show_days.
  unfold show_day, bind, st_markdown, lift. change (1 =? 1) with true. rewrite Hday.
  change ([] ++ [MdDay 1]) with [MdDay 1]. cbn [for_each]. unfold bind.
  cbv beta iota. rewrite Htype. reflexivity.
Qed.

(** A run of X17: Cisplatin without a dose, between Docetaxel and
    Etoposide, in a cycle of three days. *)
Lemma calendar_stops_at_missing_dose_run :
  calendar offline (regimen_of no_dose_cycle) [] =
  ([mkContainer 1 [MdDay 1; MdMed (JStr "Docetaxel") (JStr "75mg/m2")]], Raise KeyError).
Proof.
  apply (calendar_stops_at_missing_dose offline (regimen_of no_dose_cycle) no_dose_cycle
           [("chemotherapy",
             JList [med "Docetaxel" "75mg/m2"; JDict [("name", JStr "Cisplatin")];
                    med "Etoposide" "100mg/m2"])]
           [("name", JStr "Cisplatin")]
           [med "Docetaxel" "75mg/m2"] [med "Etoposide" "100mg/m2"] 3);
    solve [reflexivity | lia].
Defined.

Lemma process_upload_json_outputs (w : world) (cfg : sidebar) (file : uploaded_file)
  (s : state) (pages : list string) (text : string) (extracted_data : json) :
  has_key (name file) (json_outputs s) = false ->
  pdf_pages w (log s) file = inr pages ->
  nonempty (page_text pages) = true ->
  messages_create w (log s ++ [PdfRead (name file)]) (anthropic_api_key cfg)
    (extraction_prompt (page_text pages)) = Ok text ->
  json_loads w text = Some extracted_data ->
  json_outputs (fst (process_upload w cfg file s))
  = store (name file) extracted_data (json_outputs s).
Proof.
  intros Hnew Hpdf Htext Hreply Hload.
  rewrite (process_upload_parsed _ _ _ _ _ _ Hnew Hpdf Htext Hreply), Hload.
  unfold bind at 1. unfold set_json_output at 1. cbv beta iota.
  cbn [json_outputs fdb_validation log].
  destruct (nonempty (fdb_client_id cfg) && nonempty (fdb_client_secret cfg));
    [| reflexivity].
  unfold bind.
  match goal with
  | |- context [validate_regimen_with_fdb ?a ?b ?c ?d ?st] =>
      destruct (appends_validate a b c d st) as [t Ht];
      destruct (validate_regimen_with_fdb a b c d st) as [s1 [v | e]]
  end; simpl in Ht; subst s1; reflexivity.
Qed.

(** X18: once the loop body has parsed the reply for a new document with a
    non-empty file name, selecting that file in the calendar tab shows the
    calendar of exactly the parsed value, whether or not the enrichment that
    followed returned. *)
Theorem calendar_tab_shows_the_parsed_regimen (w w' : world) (cfg : sidebar)
  (file : uploaded_file) (s : state) (pages : list string) (text : string)
  (extracted_data : json) :
  has_key (name file) (json_outputs s) = false ->
  pdf_pages w (log s) file = inr pages ->
  nonempty (page_text pages) = true ->
  messages_create w (log s ++ [PdfRead (name file)]) (anthropic_api_key cfg)
    (extraction_prompt (page_text pages)) = Ok text ->
  json_loads w text = Some extracted_data ->
  nonempty (name file) = true ->
  treatment_calendar w' (fst (process_upload w cfg file s)) (name file)
  = calendar w' extracted_data.
Proof.
  intros Hnew Hpdf Htext Hreply Hload Hname. unfold treatment_calendar.
  rewrite (process_upload_json_outputs _ _ _ _ _ _ _ Hnew Hpdf Htext Hreply Hload).
  rewrite Hname, lookup_store, String.eqb_refl.
  unfold store. destruct (json_outputs s) as [| [k x] rest]; simpl; [reflexivity |].
  destruct (name file =? k)%string; reflexivity.
Qed.

(** A run of X18: the two-day regimen, uploaded with credentials. *)
Lemma calendar_tab_shows_the_parsed_regimen_run :
  let w := scenario [("{}", regimen_of two_day_cycle)] "{}"
             (always (HttpJson 200 found_drug)) in
  treatment_calendar offline (fst (process_upload w credentials template empty_session))
    "a.pdf"
  = calendar offline (regimen_of two_day_cycle).
Proof.
  intros w.
  apply (calendar_tab_shows_the_parsed_regimen w offline credentials template empty_session
           [getvalue template] "{}" (regimen_of two_day_cycle));
    reflexivity.
Defined.

(** ** The validation page *)

(** X19: an entry recorded while the interactions and the dosing request
    both failed is displayed without any sign of the failures: the three
    drug fields (or N/A), the message that no significant interactions were
    found, and an empty dosing section. *)
Theorem failed_requests_are_displayed_as_no_interactions (w : world) (med_name : json)
  (d : list (string * json)) (interactions_answer dosing_answer : http_outcome)
  (out : list widget) :
  failed interactions_answer = true ->
  failed dosing_answer = true ->
  show_results w tt
    (med_name, mkEntry (JDict d) (data_of interactions_answer) (data_of dosing_answer)) out =
  (out ++
   [Expander ("Validation Results: " ++ py_str w med_name);
    Subheader (Some 0%nat) "Drug Information";
    Write (Some 0%nat) ("Generic: " ++ py_str w (field d "DispensableGenericDesc"));
    Write (Some 0%nat) ("Route: " ++ py_str w (field d "RouteDesc"));
    Write (Some 0%nat) ("Form: " ++ py_str w (field d "DoseFormDesc"));
    Subheader (Some 1%nat) "Interactions";
    Info (Some 1%nat) "No significant interactions found";
    Subheader None "Dosing Information"],
   Ok tt).
Proof.
  intros Hi Hd.
  assert (Ei : data_of interactions_answer = JDict [])
    by (destruct interactions_answer; try discriminate Hi; reflexivity).
  assert (Ed : data_of dosing_answer = JDict [])
    by (destruct dosing_answer; try discriminate Hd; reflexivity).
  rewrite Ei, Ed. unfold show_results, show_field, show_interactions, show_dosing,
    bind, show, lift, ret, field. cbn [fst snd drug_info interactions dosing Py.get has_key].
  simpl ahas. cbv iota. rewrite <- !app_assoc. reflexivity.
Qed.

(** A run of X19: the entry of Docetaxel after two time-outs. *)
Lemma failed_requests_are_displayed_as_no_interactions_run :
  show_results offline tt
    (JStr "Docetaxel",
     mkEntry (JDict [("PrescribableDrugID", JInt 7); ("RouteDesc", JStr "IV")])
       (JDict []) (JDict [])) [] =
  ([Expander "Validation Results: Docetaxel";
    Subheader (Some 0%nat) "Drug Information";
    Write (Some 0%nat) "Generic: N/A";
    Write (Some 0%nat) "Route: IV";
    Write (Some 0%nat) "Form: N/A";
    Subheader (Some 1%nat) "Interactions";
    Info (Some 1%nat) "No significant interactions found";
    Subheader None "Dosing Information"],
   Ok tt).
Proof.
  apply (failed_requests_are_displayed_as_no_interactions offline (JStr "Docetaxel")
           [("PrescribableDrugID", JInt 7); ("RouteDesc", JStr "IV")]
           (HttpNoResponse "timed out") (HttpStatusError 503 "Service Unavailable") []);
    reflexivity.
Defined.

Lemma expanders_app (a b : list widget) : expanders (a ++ b) = expanders a ++ expanders b.
Proof. unfold expanders. apply flat_map_app. Qed.

Lemma show_warnings (items : list json) :
  forall out,
    for_each (fun (_ : unit) interaction => show (Warning (Some 1%nat) interaction)) tt items out
    = (out ++ map (Warning (Some 1%nat)) items, Ok tt).
Proof.
  induction items as [| i rest IH]; intros out; simpl.
  - rewrite app_nil_r. reflexivity.
  - unfold bind at 1. unfold show at 1. rewrite IH, <- app_assoc. reflexivity.
Qed.

Lemma expanders_warnings (items : list json) :
  expanders (map (Warning (Some 1%nat)) items) = [].
Proof. induction items as [| i rest IH]; [reflexivity | exact IH]. Qed.

Lemma show_dose_records (w : world) (records : list json) :
  forallb is_dict records = true ->
  forall out,
    exists t,
      for_each (show_dose_record w) tt records out = (out ++ t, Ok tt) /\ expanders t = [].
Proof.
  induction records as [| r rest IH]; intros Hok out; simpl.
  - exists []. rewrite app_nil_r. split; reflexivity.
  - simpl in Hok. apply andb_prop in Hok. destruct Hok as [Hr Hrest].
    destruct r as [| | | | | d]; try discriminate Hr.
    unfold bind at 1. unfold show_dose_record at 1. unfold bind, lift, show.
    cbn [Py.get]. cbv beta iota.
    match goal with
    | |- context [for_each _ tt rest ?o] => destruct (IH Hrest o) as [t [Ht Hexp]]
    end.
    rewrite Ht, <- app_assoc. eexists. split; [reflexivity |]. exact Hexp.
Qed.

Lemma show_dosing_ok (w : world) (dosing : json) :
  dosing_ok dosing = true ->
  forall out, exists t, show_dosing w dosing out = (out ++ t, Ok tt) /\ expanders t = [].
Proof.
  intros Hok out. unfold show_dosing.
  destruct dosing as [| | | | | d];
    try (exists []; rewrite app_nil_r; split; reflexivity).
  unfold dosing_ok in Hok. unfold has_key, ahas.
  unfold bind, lift. cbn [Py.getitem]. unfold lookup in Hok |- *.
  destruct (aget String.eqb "DoseRecords" d) as [[| | | | records |] |];
    try discriminate Hok.
  - simpl. apply show_dose_records. exact Hok.
  - exists []. rewrite app_nil_r. split; reflexivity.
Qed.

Lemma show_results_ok (w : world) (item : json * entry) :
  identified (snd item) = true ->
  dosing_ok (dosing (snd item)) = true ->
  forall out,
    exists t,
      show_results w tt item out = (out ++ Expander (expander_label w item) :: t, Ok tt) /\
      expanders t = [].
Proof.
  destruct item as [k [info inter dose]]. unfold identified. simpl.
  destruct info as [| | | | | d]; try discriminate. intros _ Hdose out.
  unfold show_results, show_field, bind, show, lift, expander_label. simpl.
  match goal with
  | |- context [show_interactions inter ?o] =>
      assert (Hi : exists t, show_interactions inter o = (o ++ t, Ok tt) /\ expanders t = [])
  end.
  { destruct inter as [| | | | items |];
      try (eexists; split; [reflexivity | reflexivity]).
    simpl. rewrite show_warnings. eexists. split; [reflexivity | apply expanders_warnings]. }
  destruct Hi as [ti [Hti Hei]]. rewrite Hti.
  match goal with
  | |- context [show_dosing w dose ?o] =>
      destruct (show_dosing_ok w dose Hdose o) as [td [Htd Hed]]
  end.
  rewrite Htd. rewrite <- !app_assoc. simpl. eexists. split; [reflexivity |].
  unfold expanders in *. simpl. rewrite flat_map_app, Hei. simpl. exact Hed.
Qed.

Lemma for_each_show_results (w : world) (v : validation) :
  Forall (fun ke => identified (snd ke) = true /\ dosing_ok (dosing (snd ke)) = true) v ->
  forall out,
    exists t,
      for_each (show_results w) tt v out = (out ++ t, Ok tt) /\
      expanders t = map (expander_label w) v.
Proof.
  induction 1 as [| item rest [Hid Hdose] _ IH]; intros out; simpl.
  - exists []. rewrite app_nil_r. split; reflexivity.
  - unfold bind. destruct (show_results_ok w item Hid Hdose out) as [t [Ht Hexp]].
    rewrite Ht. destruct (IH (out ++ Expander (expander_label w item) :: t)) as [u [Hu Hexp']].
    rewrite Hu, <- app_assoc. eexists. split; [reflexivity |].
    simpl. rewrite expanders_app, Hexp, Hexp'. reflexivity.
Qed.

(** X20: for a mapping the enrichment returned in which every dosing
    answer can be listed, the validation page is written without an
    exception and has one expander per entry, in the order of the mapping,
    labelled with the entry's name; for the empty mapping it has no expander
    but the warning that no results are available. *)
Theorem one_expander_per_entry (w w' : world) (regimen_data : json)
  (client_id client_secret : string) (s s1 : state) (v : validation) :
  validate_regimen_with_fdb w regimen_data client_id client_secret s = (s1, Ok v) ->
  Forall (fun ke => dosing_ok (dosing (snd ke)) = true) v ->
  exists out,
    display_validation_results w' v [] = (out, Ok tt) /\
    expanders out = map (expander_label w') v /\
    (v = [] -> out = [Warning None (JStr "No validation results available")]).
Proof.
  intros Hrun Hdose.
  assert (Hid : Forall (fun ke => Py.hash (fst ke) <> None /\ identified (snd ke) = true) v).
  { destruct (validate_cases w regimen_data client_id client_secret s)
      as [H | [[e H] | [meds [_ H]]]]; rewrite H in Hrun.
    - injection Hrun as _ <-. constructor.
    - discriminate Hrun.
    - apply (for_each_enrich_identified _ _ _ _ _ _ _ _ Hrun). constructor. }
  destruct v as [| item rest].
  - eexists. split; [reflexivity |]. split; [reflexivity |]. intros _. reflexivity.
  - unfold display_validation_results.
    destruct (for_each_show_results w' (item :: rest)) with (out := @nil widget)
      as [t [Ht Hexp]].
    + rewrite Forall_forall in *. intros ke Hin. split.
      * apply (Hid ke Hin).
      * apply (Hdose ke Hin).
    + exists t. split; [exact Ht |]. split; [exact Hexp |]. intros H. discriminate H.
Qed.

(** A run of X20: Docetaxel and Cisplatin, both known to the service. *)
Lemma one_expander_per_entry_run :
  let v := returned []
             (snd (validate_regimen_with_fdb catalog (regimen_of two_drug_cycle)
                     "id" "secret" empty_session)) in
  exists out,
    display_validation_results offline v [] = (out, Ok tt) /\
    expanders out = map (expander_label offline) v /\
    (v = [] -> out = [Warning None (JStr "No validation results available")]).
Proof.
  intros v.
  apply (one_expander_per_entry catalog offline (regimen_of two_drug_cycle) "id" "secret"
           empty_session
           (fst (validate_regimen_with_fdb catalog (regimen_of two_drug_cycle)
                   "id" "secret" empty_session)) v).
  - reflexivity.
  - repeat constructor.
Defined.
